(** * giscanner: the cache store and the compiler abstraction

    A shallow embedding of [giscanner/cachestore.py] and of the link-flag
    builders and the import-library resolver of [giscanner/ccompiler.py],
    together with the properties their specification states.

    The Python code is embedded function by function.  Calls into the
    interpreter's library (str methods, [hashlib], [os], [os.path],
    [cPickle], [subprocess]) go to the models of the modules [PyStr], [Sha1]
    and [Os] and to the fields of [CCompiler.host]. *)

From Stdlib Require Import ZArith Ascii String List Bool Lia.
From stdpp Require Import base decidable option list gmap strings.

Local Open Scope Z_scope.

(** ** Python 2 [str] methods *)

Module PyStr.

Definition startswith (s p : string) : bool := String.prefix p s.

(** [s[n:]] for a non-negative [n]. *)
Fixpoint slice_from (n : nat) (s : string) : string :=
  match n, s with
  | O, _ => s
  | S _, EmptyString => EmptyString
  | S n', String _ s' => slice_from n' s'
  end.

Definition endswith (s p : string) : bool :=
  (String.length p <=? String.length s)%nat
  && String.eqb (slice_from (String.length s - String.length p) s) p.

(** [needle in s]. *)
Fixpoint contains (needle s : string) : bool :=
  String.prefix needle s
  || match s with
     | EmptyString => false
     | String _ s' => contains needle s'
     end.

Definition snoc (s : string) (c : ascii) : string :=
  s +:+ String c EmptyString.

(** [s.split(sep)] for a one-character separator; [cur] is the field being
    read. *)
Fixpoint split_from (sep : ascii) (s cur : string) : list string :=
  match s with
  | EmptyString => [cur]
  | String c s' =>
      if Ascii.eqb c sep then cur :: split_from sep s' EmptyString
      else split_from sep s' (snoc cur c)
  end.

Definition split (sep : ascii) (s : string) : list string :=
  split_from sep s EmptyString.

(** The characters [str.split()] treats as blanks. *)
Definition isspace (c : ascii) : bool :=
  let n := N_of_ascii c in
  (N.eqb n 32 || (N.leb 9 n && N.leb n 13))%N.

Definition flush (cur : string) (k : list string) : list string :=
  if String.eqb cur EmptyString then k else cur :: k.

(** [s.split()]: runs of blanks separate the words, no empty word. *)
Fixpoint split_ws_from (s cur : string) : list string :=
  match s with
  | EmptyString => flush cur []
  | String c s' =>
      if isspace c then flush cur (split_ws_from s' EmptyString)
      else split_ws_from s' (snoc cur c)
  end.

Definition split_ws (s : string) : list string :=
  split_ws_from s EmptyString.

Definition LF : ascii := ascii_of_N 10.
Definition CR : ascii := ascii_of_N 13.

(** [s.splitlines()]: lines end at LF, CR or CR LF; no line after a final
    line end. *)
Fixpoint splitlines_from (s cur : string) : list string :=
  match s with
  | EmptyString => flush cur []
  | String c s' =>
      if Ascii.eqb c LF then cur :: splitlines_from s' EmptyString
      else if Ascii.eqb c CR then
        match s' with
        | String c' s'' =>
            if Ascii.eqb c' LF then cur :: splitlines_from s'' EmptyString
            else cur :: splitlines_from s' EmptyString
        | EmptyString => [cur]
        end
      else splitlines_from s' (snoc cur c)
  end.

Definition splitlines (s : string) : list string :=
  splitlines_from s EmptyString.

(** [sep.join(l)]. *)
Definition join (sep : string) (l : list string) : string :=
  String.concat sep l.

End PyStr.

(** ** [hashlib.sha1(s).hexdigest()] *)

Module Sha1.

Definition mask32 (x : Z) : Z := Z.land x 4294967295.

Definition rotl (n x : Z) : Z :=
  mask32 (Z.lor (Z.shiftl x n) (Z.shiftr x (32 - n))).

Definition bytes_of (s : string) : list Z :=
  map (fun c => Z.of_N (N_of_ascii c)) (list_ascii_of_string s).

(** The [n] low bytes of [x], most significant first. *)
Fixpoint be_bytes (n : nat) (x : Z) : list Z :=
  match n with
  | O => []
  | S n' => Z.land (Z.shiftr x (8 * Z.of_nat n')) 255 :: be_bytes n' x
  end.

Definition pad (msg : list Z) : list Z :=
  let len := Z.of_nat (length msg) in
  let zeros := Z.to_nat ((55 - len) mod 64) in
  msg ++ 128 :: repeat 0 zeros ++ be_bytes 8 (8 * len).

Fixpoint words (bs : list Z) : list Z :=
  match bs with
  | b0 :: b1 :: b2 :: b3 :: rest =>
      (Z.shiftl b0 24 + Z.shiftl b1 16 + Z.shiftl b2 8 + b3) :: words rest
  | _ => []
  end.

Fixpoint blocks (fuel : nat) (ws : list Z) : list (list Z) :=
  match fuel, ws with
  | S fuel', _ :: _ => take 16 ws :: blocks fuel' (drop 16 ws)
  | _, _ => []
  end.

(** The message schedule, latest word first: [rev_w] holds W[t-1], W[t-2],
    ... *)
Fixpoint schedule (n : nat) (rev_w : list Z) : list Z :=
  match n with
  | O => rev_w
  | S n' =>
      let w := rotl 1 (Z.lxor (Z.lxor (nth 2 rev_w 0) (nth 7 rev_w 0))
                              (Z.lxor (nth 13 rev_w 0) (nth 15 rev_w 0))) in
      schedule n' (w :: rev_w)
  end.

Record regs := Regs { ra : Z; rb : Z; rc : Z; rd : Z; re : Z }.

Definition round (t : nat) (w : Z) (r : regs) : regs :=
  let '(Regs a b c d e) := r in
  let '(f, k) :=
    if (t <? 20)%nat then
      (Z.lor (Z.land b c) (Z.land (Z.lxor b 4294967295) d), 1518500249)
    else if (t <? 40)%nat then
      (Z.lxor (Z.lxor b c) d, 1859775393)
    else if (t <? 60)%nat then
      (Z.lor (Z.lor (Z.land b c) (Z.land b d)) (Z.land c d), 2400959708)
    else
      (Z.lxor (Z.lxor b c) d, 3395469782) in
  Regs (mask32 (rotl 5 a + f + e + k + w)) a (rotl 30 b) c d.

Fixpoint rounds (t : nat) (ws : list Z) (r : regs) : regs :=
  match ws with
  | [] => r
  | w :: ws' => rounds (S t) ws' (round t w r)
  end.

Definition compress (h : regs) (block : list Z) : regs :=
  let w := rev (schedule 64 (rev block)) in
  let r := rounds 0 w h in
  Regs (mask32 (ra h + ra r)) (mask32 (rb h + rb r)) (mask32 (rc h + rc r))
       (mask32 (rd h + rd r)) (mask32 (re h + re r)).

Definition init : regs :=
  Regs 1732584193 4023233417 2562383102 271733878 3285377520.

Definition hexdigit (x : Z) : ascii :=
  if x <? 10 then ascii_of_N (Z.to_N (48 + x))
  else ascii_of_N (Z.to_N (87 + x)).

Definition hex32 (x : Z) : string :=
  string_of_list_ascii
    (map (fun i => hexdigit (Z.land (Z.shiftr x (4 * Z.of_nat i)) 15))
         [7; 6; 5; 4; 3; 2; 1; 0]%nat).

Definition hexdigest (s : string) : string :=
  let ws := words (pad (bytes_of s)) in
  let '(Regs a b c d e) := fold_left compress (blocks (length ws) ws) init in
  hex32 a +:+ hex32 b +:+ hex32 c +:+ hex32 d +:+ hex32 e.

End Sha1.

(** ** Exceptions, error numbers and cached values *)

Inductive errno :=
| EPERM | ENOENT | EIO | EBADF | EACCES | EEXIST | ENOTDIR | EISDIR
| ENOSPC | EROFS.

#[global] Instance errno_eq_dec : EqDecision errno.
Proof. solve_decision. Defined.

(** Python 2: [OSError] and [IOError] are different classes; an [except]
    clause for one does not catch the other. *)
Inductive exn :=
| OSError (e : errno)
| IOError (e : errno)
| EOFError
| UnpicklingError
| AttributeError
| KeyError (key : string)
| SystemExit (msg : string).

(** The values handed to the cache.  [PNone] is Python's [None], which is
    also what [load] returns for an absent entry. *)
Inductive pyval :=
| PNone
| PInt (z : Z)
| PStr (s : string)
| PPair (a b : pyval).

(** ** The host: file system, clock, environment, failing system calls *)

Module Os.

(** What a file holds, as far as [cPickle.load] can tell. *)
Inductive payload :=
| Pickled (v : pyval)     (* a complete pickle of [v] *)
| Truncated (n : nat)     (* the first [n] bytes of a longer pickle;
                             [Truncated 0] is the zero-byte file *)
| Garbled.                (* bytes that start no pickle *)

Inductive node :=
| File (mtime : Z) (data : payload)
| Dir (mtime : Z).

Definition st_mtime (n : node) : Z :=
  match n with
  | File t _ => t
  | Dir t => t
  end.

Inductive syscall :=
| SysStat (p : string)
| SysMkdir (p : string)
| SysOpenR (p : string)
| SysOpenW (p : string)
| SysRead (p : string)
| SysWrite (p : string)
| SysUnlink (p : string).

(** The file system is a flat map from path names to nodes.  [faults]
    tells which system calls the host refuses and with which error
    number; it stands for every cause of failure the flat map does not
    hold (permissions, a read-only or full device, a missing parent
    directory). *)
Record world := World {
  fs : gmap string node;
  clock : Z;
  environ : gmap string string;
  faults : syscall -> option errno
}.

Definition with_fs (w : world) (m : gmap string node) : world :=
  World m (clock w) (environ w) (faults w).

(** A computation runs in a world and either returns or raises; both
    leave a world behind. *)
Inductive outcome (A : Type) :=
| Return (a : A) (w : world)
| Raise (e : exn) (w : world).
Arguments Return {A} a w.
Arguments Raise {A} e w.

Definition M (A : Type) : Type := world -> outcome A.

Definition ret {A} (a : A) : M A := fun w => Return a w.
Definition raise {A} (e : exn) : M A := fun w => Raise e w.
Definition bind {A B} (c : M A) (k : A -> M B) : M B :=
  fun w => match c w with
           | Return a w' => k a w'
           | Raise e w' => Raise e w'
           end.

(** [try: c  except ...: h]: the handler [h] answers [None] for the
    exceptions its clauses do not match, which then go on upwards. *)
Definition try_except {A} (c : M A) (h : exn -> option (M A)) : M A :=
  fun w => match c w with
           | Return a w' => Return a w'
           | Raise e w' =>
               match h e with
               | Some k => k w'
               | None => Raise e w'
               end
           end.

Declare Scope py_scope.
Delimit Scope py_scope with py.
Notation "x <- c ;; k" := (bind c (fun x => k))
  (at level 100, c at next level, right associativity) : py_scope.
Notation "c ;;; k" := (bind c (fun _ => k))
  (at level 100, right associativity) : py_scope.
Local Open Scope py_scope.

Definition os_environ_getitem (key : string) : M string :=
  fun w => match environ w !! key with
           | Some v => Return v w
           | None => Raise (KeyError key) w
           end.

(** [posixpath.join(a, b)]. *)
Definition os_path_join (a b : string) : string :=
  if PyStr.startswith b "/" then b
  else if String.eqb a "" || PyStr.endswith a "/" then a +:+ b
  else a +:+ "/" +:+ b.

Definition stat (p : string) (w : world) : errno + node :=
  match faults w (SysStat p) with
  | Some e => inl e
  | None => match fs w !! p with
            | Some n => inr n
            | None => inl ENOENT
            end
  end.

(** [os.path.exists] and [os.path.isdir] answer [False] when [stat]
    fails. *)
Definition os_path_exists (p : string) : M bool :=
  fun w => Return (match stat p w with inr _ => true | inl _ => false end) w.

Definition os_path_isdir (p : string) : M bool :=
  fun w => Return (match stat p w with inr (Dir _) => true | _ => false end) w.

Definition os_stat_st_mtime (p : string) : M Z :=
  fun w => match stat p w with
           | inr n => Return (st_mtime n) w
           | inl e => Raise (OSError e) w
           end.

Definition os_mkdir (p : string) : M unit :=
  fun w => match faults w (SysMkdir p) with
           | Some e => Raise (OSError e) w
           | None =>
               match fs w !! p with
               | Some _ => Raise (OSError EEXIST) w
               | None => Return tt (with_fs w (<[p := Dir (clock w)]> (fs w)))
               end
           end.

Definition os_unlink (p : string) : M unit :=
  fun w => match faults w (SysUnlink p) with
           | Some e => Raise (OSError e) w
           | None =>
               match fs w !! p with
               | Some (File _ _) => Return tt (with_fs w (delete p (fs w)))
               | Some (Dir _) => Raise (OSError EISDIR) w
               | None => Raise (OSError ENOENT) w
               end
           end.

(** An open file is named by its path: between [open] and the read or
    write through it the two modules touch no other file. *)
Abbreviation file := string (only parsing).

(** [open(p)] *)
Definition open_r (p : string) : M file :=
  fun w => match faults w (SysOpenR p) with
           | Some e => Raise (IOError e) w
           | None =>
               match fs w !! p with
               | Some (File _ _) => Return p w
               | Some (Dir _) => Raise (IOError EISDIR) w
               | None => Raise (IOError ENOENT) w
               end
           end.

(** [open(p, 'w')]: creates the file, or empties the one there. *)
Definition open_w (p : string) : M file :=
  fun w => match faults w (SysOpenW p) with
           | Some e => Raise (IOError e) w
           | None =>
               match fs w !! p with
               | Some (Dir _) => Raise (IOError EISDIR) w
               | _ => Return p
                        (with_fs w (<[p := File (clock w) (Truncated 0)]> (fs w)))
               end
           end.

Definition cPickle_dump (data : pyval) (fd : file) : M unit :=
  fun w => match faults w (SysWrite fd) with
           | Some e => Raise (IOError e) w
           | None =>
               Return tt (with_fs w (<[fd := File (clock w) (Pickled data)]> (fs w)))
           end.

Definition cPickle_load (fd : file) : M pyval :=
  fun w => match faults w (SysRead fd) with
           | Some e => Raise (IOError e) w
           | None =>
               match fs w !! fd with
               | Some (File _ (Pickled v)) => Return v w
               | Some (File _ (Truncated _)) => Raise EOFError w
               | Some (File _ Garbled) => Raise UnpicklingError w
               | _ => Raise (IOError EBADF) w
               end
           end.

(** Attribute lookup on an [IOError] instance.  The instance has [errno]
    (and [strerror], [filename], [args], [message], which hold no error
    number); any other name raises [AttributeError]. *)
Definition IOError_getattr (e : errno) (name : string) : M errno :=
  if String.eqb name "errno" then ret e else raise AttributeError.

(** The environment touching a file: its modification time becomes [t]. *)
Definition touch (p : string) (t : Z) (w : world) : world :=
  match fs w !! p with
  | Some (File _ d) => with_fs w (<[p := File t d]> (fs w))
  | Some (Dir _) => with_fs w (<[p := Dir t]> (fs w))
  | None => w
  end.

Definition fault_free (w : world) : Prop := forall c, faults w c = None.

(** The world after [open(p, 'w')] and a complete write of [v]. *)
Definition written (w : world) (p : string) (v : pyval) : world :=
  with_fs w (<[p := File (clock w) (Pickled v)]>
               (<[p := File (clock w) (Truncated 0)]> (fs w))).

End Os.

(** ** giscanner/cachestore.py *)

Module CacheStore.
Import Os.
Local Open Scope py_scope.

Definition _get_cachedir : M (option string) :=
  home <- os_environ_getitem "HOME" ;;
  let cachedir := os_path_join home ".cache" in
  e1 <- os_path_exists cachedir ;;
  (if negb e1 then os_mkdir cachedir else ret tt) ;;;
  let scannerdir := os_path_join cachedir "g-ir-scanner" in
  e2 <- os_path_exists scannerdir ;;
  if negb e2 then
    os_mkdir scannerdir ;;; ret (Some scannerdir)
  else
    d <- os_path_isdir scannerdir ;;
    (* If it exists and is a file, don't cache at all *)
    if negb d then ret None else ret (Some scannerdir).

Record CacheStore := { _directory : option string }.

Definition __init__ : M CacheStore :=
  try_except
    (d <- _get_cachedir ;; ret {| _directory := d |})
    (fun e => match e with
              | OSError en =>
                  Some (if decide (en <> EPERM) then raise (OSError en)
                        else ret {| _directory := None |})
              | _ => None
              end).

Definition _get_filename (self : CacheStore) (filename : string)
  : option string :=
  match _directory self with
  | None => None
  | Some directory =>
      let hexdigest := Sha1.hexdigest filename in
      Some (os_path_join directory hexdigest)
  end.

Definition _cache_is_valid (store_filename filename : string) : M bool :=
  a <- os_stat_st_mtime store_filename ;;
  b <- os_stat_st_mtime filename ;;
  ret (b <=? a).

Definition _purge_cache (filename : string) : M unit :=
  try_except
    (os_unlink filename)
    (fun e => match e with
              | IOError en =>
                  Some (if decide (en = EACCES) then ret tt
                        else if decide (en = ENOENT) then ret tt
                        else raise (IOError en))
              | _ => None
              end).

Definition store (self : CacheStore) (filename : string) (data : pyval)
  : M unit :=
  match _get_filename self filename with
  | None => ret tt
  | Some store_filename =>
      ex <- os_path_exists store_filename ;;
      valid <- (if ex then _cache_is_valid store_filename filename
                else ret false) ;;
      if valid then ret tt
      else
        fd <- open_w store_filename ;;
        try_except
          (cPickle_dump data fd)
          (fun e => match e with
                    | IOError en =>
                        (* No space left on device *)
                        Some (a <- IOError_getattr en "errno" ;;
                              b <- IOError_getattr en "ENOSPC" ;;
                              if decide (a = b) then ret tt
                              else raise (IOError en))
                    | _ => None
                    end)
  end.

Definition load (self : CacheStore) (filename : string) : M pyval :=
  match _get_filename self filename with
  | None => ret PNone
  | Some store_filename =>
      opened <- try_except
                  (fd <- open_r store_filename ;; ret (Some fd))
                  (fun e => match e with
                            | IOError en =>
                                Some (if decide (en = ENOENT) then ret None
                                      else raise (IOError en))
                            | _ => None
                            end) ;;
      match opened with
      | None => ret PNone
      | Some fd =>
          valid <- _cache_is_valid store_filename filename ;;
          if negb valid then ret PNone
          else
            try_except
              (cPickle_load fd)
              (fun e => match e with
                        | EOFError =>
                            (* Broken cache entry, remove it *)
                            Some (_purge_cache store_filename ;;; ret PNone)
                        | _ => None
                        end)
      end
  end.

End CacheStore.

(** ** giscanner/ccompiler.py *)

Module CCompiler.

(** The distutils compiler classes [self.compiler] is an instance of. *)
Inductive compiler_class :=
| MSVCCompiler
| Mingw32CCompiler
| UnixCCompiler.

Record CCompiler := {
  compiler : compiler_class;
  compiler_cmd : string;
  _cflags_no_deprecation_warnings : string
}.

Definition check_is_msvc (self : CCompiler) : bool :=
  match compiler self with
  | MSVCCompiler => true
  | _ => false
  end.

(** The parsed command line; the resolver only hands it on to
    [utils.get_libtool_command]. *)
Inductive options := Options (argv : list string).

(** What the module asks of the platform it runs on.  [os.path] is
    [ntpath] or [posixpath] according to the interpreter, so its functions
    are fields here.  [popen argv] is the standard output of
    [subprocess.Popen(argv, stdout=PIPE).communicate()]; the tools are taken
    to be runnable.  [utils] is the sibling module giscanner/utils.py:
    [utils_get_libtool_command] answers [None] for Python's [None], and
    [utils_which] is taken to find the program. *)
Record host := Host {
  os_environ : gmap string string;
  os_path_join : string -> string -> string;
  os_path_exists : string -> bool;
  os_path_isabs : string -> bool;
  popen : list string -> string;
  utils_get_libtool_command : options -> option (list string);
  utils_which : string -> string
}.

(** [args], a Python list, is appended to in place; the embedding returns
    the list as it is after the call. *)
Definition get_internal_link_flags (h : host) (self : CCompiler)
    (args : list string) (libtool : bool) (libraries libpaths : list string)
  : list string :=
  (* Search the current directory first *)
  let args :=
    if negb (check_is_msvc self) then
      let args := args ++ ["-L."] in
      if negb libtool then (args ++ ["-Wl,-rpath=."]) ++ ["-Wl,--no-as-needed"]
      else args
    else args in
  let args :=
    fold_left
      (fun args library =>
         if check_is_msvc self then args ++ [library +:+ ".lib"]
         else if PyStr.endswith library ".la" then args ++ [library]
              else args ++ ["-l" +:+ library])
      libraries args in
  fold_left
    (fun args library_path =>
       if negb (check_is_msvc self) then
         let args := args ++ ["-L" +:+ library_path] in
         if os_path_isabs h library_path then
           if libtool then (args ++ ["-rpath"]) ++ [library_path]
           else args ++ ["-Wl,-rpath=" +:+ library_path]
         else args
       else args)
    libpaths args.

Definition get_external_link_flags (self : CCompiler)
    (args : list string) (libraries : list string) : list string :=
  fold_left
    (fun args library =>
       if check_is_msvc self then args ++ [library +:+ ".lib"]
       else if PyStr.endswith library ".la" then args ++ [library]
            else args ++ ["-l" +:+ library])
    libraries args.

(** The calls [resolve_windows_libs] makes to the outside, in order. *)
Inductive call :=
| Exists (path : string)
| Popen (argv : list string).

(** The variables the loops of [resolve_windows_libs] update. *)
Record scan := Scan {
  found : bool;
  shlibs : list string;
  calls : list call
}.

Definition called (c : call) (st : scan) : scan :=
  Scan (found st) (shlibs st) (calls st ++ [c]).

Definition resolved (shlib : string) (st : scan) : scan :=
  Scan true (shlibs st ++ [shlib]) (calls st).

(** [for item in line_tokens] *)
Fixpoint for_item (line_tokens : list string) (st : scan) : scan :=
  match line_tokens with
  | [] => st
  | item :: rest =>
      if PyStr.startswith item "__IMPORT_DESCRIPTOR_" then
        resolved (PyStr.slice_from 20 item +:+ ".dll") st   (* break *)
      else for_item rest st
  end.

(** [for line in o.splitlines()] *)
Fixpoint for_line (msvc : bool) (lines : list string) (st : scan) : scan :=
  match lines with
  | [] => st
  | line :: rest =>
      if msvc then
        let st :=
          if PyStr.contains "__IMPORT_DESCRIPTOR_" line then
            for_item (PyStr.split_ws line) st
          else st in
        if found st then st   (* break *)
        else for_line msvc rest st
      else resolved line st   (* break *)
  end.

(** [for c in candidates] *)
Fixpoint for_c (h : host) (msvc : bool) (args : list string) (l : string)
    (candidates : list string) (st : scan) : scan :=
  match candidates with
  | [] => st
  | c :: rest =>
      if found st then st   (* break *)
      else
        let implib := os_path_join h l c in
        let st := called (Exists implib) st in
        if os_path_exists h implib then
          let st := called (Popen (args ++ [implib])) st in
          let o := popen h (args ++ [implib]) in
          for_c h msvc args l rest (for_line msvc (PyStr.splitlines o) st)
        else for_c h msvc args l rest st
  end.

(** [for l in libsearch] *)
Fixpoint for_l (h : host) (msvc : bool) (args : list string)
    (libsearch candidates : list string) (st : scan) : scan :=
  match libsearch with
  | [] => st
  | l :: rest =>
      if found st then st   (* break *)
      else
        let l := if PyStr.startswith l "=" then PyStr.slice_from 1 l else l in
        for_l h msvc args rest candidates (for_c h msvc args l candidates st)
  end.

(** [for lib in libraries]; the state is [shlibs], [not_resolved] and the
    calls made. *)
Fixpoint for_lib (h : host) (msvc : bool) (args libsearch : list string)
    (libraries : list string) (st : list string * list string * list call)
  : list string * list string * list call :=
  match libraries with
  | [] => st
  | lib :: rest =>
      let '(shlibs0, not_resolved, calls0) := st in
      let candidates := [
        "lib" +:+ lib +:+ ".dll.a";
        "lib" +:+ lib +:+ ".a";
        lib +:+ ".dll.a";
        lib +:+ ".a";
        lib +:+ ".lib"
      ] in
      let st := for_l h msvc args libsearch candidates
                  (Scan false shlibs0 calls0) in
      let not_resolved :=
        if negb (found st) then not_resolved ++ [lib] else not_resolved in
      for_lib h msvc args libsearch rest (shlibs st, not_resolved, calls st)
  end.

(** The first half of [resolve_windows_libs]: the command [args] and the
    directories [libsearch], with the calls made to find them. *)
Definition search_setup (h : host) (self : CCompiler) (opts : options)
  : exn + (list string * list string * list call) :=
  if check_is_msvc self then
    match os_environ h !! "LIB" with
    | None => inl AttributeError   (* None has no split *)
    | Some libpath =>
        inr (["dumpbin.exe"; "-symbols"], PyStr.split ";" libpath, [])
    end
  else
    let libtool := utils_get_libtool_command h opts in
    let args :=
      match libtool with
      | Some (t :: ts) =>
          [utils_which h (default "sh.exe" (os_environ h !! "SHELL"))]
            ++ (t :: ts) ++ ["--mode=execute"]
      | _ => []
      end in
    let args := args ++ ["dlltool.exe"; "--identify"] in
    let argv := [compiler_cmd self; "-print-search-dirs"] in
    let o := popen h argv in
    let libsearch :=
      fold_left
        (fun libsearch line =>
           if PyStr.startswith line "libraries: " then
             PyStr.split ";" (PyStr.slice_from 11 line)
           else libsearch)
        (PyStr.splitlines o) [] in
    inr (args, libsearch, [Popen argv]).

Definition resolve_windows_libs (h : host) (self : CCompiler)
    (libraries : list string) (opts : options)
  : (exn + list string) * list call :=
  match search_setup h self opts with
  | inl e => (inl e, [])
  | inr (args, libsearch, calls0) =>
      let '(shlibs, not_resolved, calls) :=
        for_lib h (check_is_msvc self) args libsearch libraries
                ([], [], calls0) in
      if (0 <? length not_resolved)%nat then
        (inl (SystemExit
                ("ERROR: can't resolve libraries to shared libraries: "
                 +:+ PyStr.join ", " not_resolved)),
         calls)
      else (inr shlibs, calls)
  end.

End CCompiler.

(** ** The specification's words

    The definitions of this module follow the specification, not the code;
    the theorems below compare the two. *)

Module Spec.
Import CCompiler.

(** *** Cache store *)

(** No valid entry sits at [store_filename] for a source last modified at
    [t]: the path is free, or holds a regular file older than [t]. *)
Definition no_valid_entry (w : Os.world) (store_filename : string) (t : Z)
  : Prop :=
  match Os.fs w !! store_filename with
  | None => True
  | Some (Os.File ms _) => ms < t
  | Some (Os.Dir _) => False
  end.

(** "store(k, v) followed immediately by load(k) returns v", with the
    provisos the claim names: caching is enabled, the source file exists,
    and nothing happens between the two calls. *)
Definition store_load_round_trip : Prop :=
  forall (cs : CacheStore.CacheStore) (d : string) (w : Os.world)
         (k : string) (v : pyval) (n : Os.node),
    CacheStore._directory cs = Some d ->
    Os.fault_free w ->
    Os.fs w !! k = Some n ->
    exists w1 w2,
      CacheStore.store cs k v w = Os.Return tt w1
      /\ CacheStore.load cs k w1 = Os.Return v w2.

(** "store(k, v1) then store(k, v2) leaves the first value in place: the
    second store is a no-op and load(k) still returns v1", for every key
    and pair of values. *)
Definition second_store_keeps_first : Prop :=
  forall (cs : CacheStore.CacheStore) (w : Os.world)
         (k : string) (v1 v2 : pyval) (n : Os.node),
    Os.fault_free w ->
    Os.fs w !! k = Some n ->
    exists w1 w2,
      CacheStore.store cs k v1 w = Os.Return tt w1
      /\ CacheStore.store cs k v2 w1 = Os.Return tt w1
      /\ CacheStore.load cs k w1 = Os.Return v1 w2.

(** *** Link flags *)

(** "if MSVC, appends <name>.lib; else if the name already ends in .la,
    appends it verbatim; else appends -l<name>" *)
Definition decorate (msvc : bool) (name : string) : string :=
  if msvc then name +:+ ".lib"
  else if PyStr.endswith name ".la" then name
       else "-l" +:+ name.

(** "Unless MSVC, prepends a search-current-directory-first flag;
    additionally, unless libtool-mediated, adds a runtime search-path entry
    for the current directory and disables as-needed pruning." *)
Definition here_flags (msvc libtool : bool) : list string :=
  if msvc then []
  else if libtool then ["-L."]
       else ["-L."; "-Wl,-rpath=."; "-Wl,--no-as-needed"].

(** "For each library path (skipped entirely under MSVC): appends
    -L<path>; if the path is absolute, appends an rpath flag directly or,
    when libtool-mediated, as two separate tokens." *)
Definition path_flags (h : host) (msvc libtool : bool) (path : string)
  : list string :=
  if msvc then []
  else ("-L" +:+ path)
         :: (if os_path_isabs h path then
               if libtool then ["-rpath"; path]
               else ["-Wl,-rpath=" +:+ path]
             else []).

(** *** Import-library resolver *)

(** The candidate file names of a library, in the order of the text. *)
Definition candidate_names (name : string) : list string :=
  [ "lib" +:+ name +:+ ".dll.a";
    "lib" +:+ name +:+ ".a";
    name +:+ ".dll.a";
    name +:+ ".a";
    name +:+ ".lib" ].

(** "entries may carry a leading = marker that must be stripped" *)
Definition strip_marker (l : string) : string :=
  match l with
  | String "=" rest => rest
  | _ => l
  end.

(** The files to try for a library: directory by directory, and in each
    directory candidate by candidate. *)
Definition probes (h : host) (libsearch : list string) (name : string)
  : list string :=
  flat_map
    (fun l => map (os_path_join h (strip_marker l)) (candidate_names name))
    libsearch.

(** MSVC: the first token [__IMPORT_DESCRIPTOR_<base>] of a line gives
    [<base>.dll]. *)
Definition import_descriptor (line : string) : option string :=
  if PyStr.contains "__IMPORT_DESCRIPTOR_" line then
    match List.find (fun item => PyStr.startswith item "__IMPORT_DESCRIPTOR_")
                    (PyStr.split_ws line) with
    | Some item => Some (PyStr.slice_from 20 item +:+ ".dll")
    | None => None
    end
  else None.

Fixpoint first_descriptor (lines : list string) : option string :=
  match lines with
  | [] => None
  | line :: rest =>
      match import_descriptor line with
      | Some dll => Some dll
      | None => first_descriptor rest
      end
  end.

(** What the tool's output resolves to: under MSVC the first import
    descriptor, otherwise the first line. *)
Definition parse_output (msvc : bool) (o : string) : option string :=
  if msvc then first_descriptor (PyStr.splitlines o)
  else head (PyStr.splitlines o).

(** Trying the files [ps] in order: each is checked for existence, an
    existing one is handed to the tool, and the first output that parses
    ends the search.  The result is the calls made and the name found. *)
Fixpoint probe (h : host) (msvc : bool) (args : list string)
    (ps : list string) : list call * option string :=
  match ps with
  | [] => ([], None)
  | p :: rest =>
      if os_path_exists h p then
        match parse_output msvc (popen h (args ++ [p])) with
        | Some dll => ([Exists p; Popen (args ++ [p])], Some dll)
        | None =>
            let '(cs, r) := probe h msvc args rest in
            (Exists p :: Popen (args ++ [p]) :: cs, r)
        end
      else
        let '(cs, r) := probe h msvc args rest in
        (Exists p :: cs, r)
  end.

(** A file [q] on which the search goes on: it is missing, or the tool's
    output for it does not parse. *)
Definition passes (h : host) (msvc : bool) (args : list string) (q : string)
  : Prop :=
  os_path_exists h q = false
  \/ parse_output msvc (popen h (args ++ [q])) = None.

Definition probe_calls (h : host) (msvc : bool) (args libsearch : list string)
    (name : string) : list call :=
  fst (probe h msvc args (probes h libsearch name)).

(** The shared library a requested library resolves to, if any. *)
Definition resolution (h : host) (msvc : bool) (args libsearch : list string)
    (name : string) : option string :=
  snd (probe h msvc args (probes h libsearch name)).

(** The loop variables after a search that started in [st], made the
    calls [cs] and ended with [r]. *)
Definition after (st : scan) (out : list call * option string) : scan :=
  match snd out with
  | Some dll => Scan true (shlibs st ++ [dll]) (calls st ++ fst out)
  | None => Scan (found st) (shlibs st) (calls st ++ fst out)
  end.

(** The paths a list of calls checked for existence. *)
Definition checked (cs : list call) : list string :=
  omap (fun c => match c with Exists p => Some p | Popen _ => None end) cs.

Definition failure_message (unresolved : list string) : string :=
  "ERROR: can't resolve libraries to shared libraries: "
  +:+ PyStr.join ", " unresolved.

End Spec.

(** ** Concrete hosts used by the examples *)

Module Demo.
Import Os CacheStore.

Definition home : string := "/home/u".
Definition cache_dir : string := "/home/u/.cache/g-ir-scanner".
Definition key : string := "/src/gtk.h".
Definition slot : string :=
  Eval vm_compute in os_path_join cache_dir (Sha1.hexdigest key).

Definition env : gmap string string := {[ "HOME" := home ]}.
Definition no_faults : syscall -> option errno := fun _ => None.

Definition enabled : CacheStore := {| _directory := Some cache_dir |}.
Definition disabled : CacheStore := {| _directory := None |}.

Definition tree : gmap string node :=
  <[ key := File 5 Garbled ]>
    (<[ cache_dir := Dir 1 ]>
       (<[ "/home/u/.cache" := Dir 1 ]> {[ home := Dir 0 ]})).

(** The source exists, the cache directory is empty. *)
Definition world_empty : world := World tree 10 env no_faults.

(** A valid entry holding 1 is already there. *)
Definition world_cached : world :=
  World (<[ slot := File 7 (Pickled (PInt 1)) ]> tree) 10 env no_faults.

(** The entry was cut down to zero bytes. *)
Definition world_truncated : world :=
  World (<[ slot := File 7 (Truncated 0) ]> tree) 10 env no_faults.

(** The device is full: every write fails with ENOSPC. *)
Definition world_full : world :=
  World tree 10 env
        (fun c => match c with SysWrite _ => Some ENOSPC | _ => None end).

(** The home directory exists and refuses new entries with EACCES
    (permission denied). *)
Definition world_readonly_home : world :=
  World {[ home := Dir 0 ]} 10 env
        (fun c => match c with SysMkdir _ => Some EACCES | _ => None end).

(** The same with EPERM (operation not permitted). *)
Definition world_eperm_home : world :=
  World {[ home := Dir 0 ]} 10 env
        (fun c => match c with SysMkdir _ => Some EPERM | _ => None end).

(** A regular file sits where the cache directory should be. *)
Definition world_file_in_the_way : world :=
  World (<[ cache_dir := File 1 Garbled ]>
           (<[ "/home/u/.cache" := Dir 1 ]> {[ home := Dir 0 ]}))
        10 env no_faults.

(** *** Hosts for the compiler module *)

Definition gcc : CCompiler.CCompiler :=
  {| CCompiler.compiler := CCompiler.Mingw32CCompiler;
     CCompiler.compiler_cmd := "gcc";
     CCompiler._cflags_no_deprecation_warnings :=
       "-Wno-deprecated-declarations" |}.

Definition cl : CCompiler.CCompiler :=
  {| CCompiler.compiler := CCompiler.MSVCCompiler;
     CCompiler.compiler_cmd := "cl.exe";
     CCompiler._cflags_no_deprecation_warnings := "-wd4996" |}.

Definition line (s : string) : string := s +:+ String PyStr.LF "".

(** MinGW: gcc searches /usr/lib and =/opt/lib; libbar.dll.a is in
    /opt/lib, and dlltool identifies it as libbar-1.dll. *)
Definition mingw_popen (argv : list string) : string :=
  if decide (argv = ["gcc"; "-print-search-dirs"]) then
    line "install: /mingw/lib/gcc/" +:+ line "libraries: /usr/lib;=/opt/lib"
  else if decide (argv = ["dlltool.exe"; "--identify";
                          "/opt/lib/libbar.dll.a"]) then
    line "libbar-1.dll"
  else "".

Definition mingw_host : CCompiler.host :=
  CCompiler.Host ∅ Os.os_path_join
    (fun p => bool_decide (p = "/opt/lib/libbar.dll.a"))
    (fun p => PyStr.startswith p "/")
    mingw_popen (fun _ => None) (fun prog => prog).

(** MSVC: LIB names two directories; foo.lib is in the second one and
    dumpbin shows the import descriptor of foo-2.dll. *)
Definition msvc_popen (argv : list string) : string :=
  if decide (argv = ["dumpbin.exe"; "-symbols"; "D:/sdk/lib/foo.lib"]) then
    line "Dump of file foo.lib"
    +:+ line "001 00000000 SECT2 notype External | __IMPORT_DESCRIPTOR_foo-2"
    +:+ line "002 00000000 SECT3 notype External | __NULL_IMPORT_DESCRIPTOR"
  else "".

Definition msvc_host : CCompiler.host :=
  CCompiler.Host {[ "LIB" := "C:/vc/lib;D:/sdk/lib" ]} Os.os_path_join
    (fun p => bool_decide (p = "D:/sdk/lib/foo.lib"))
    (fun p => PyStr.startswith p "/")
    msvc_popen (fun _ => None) (fun prog => prog).

Definition no_options : CCompiler.options := CCompiler.Options [].

End Demo.

(** ** Observing an outcome, and the passing of time *)

Module Observe.
Import Os.



(** The environment letting time pass: the clock shows [t]. *)
Definition advance (t : Z) (w : world) : world :=
  World (fs w) t (environ w) (faults w).


End Observe.

(** ** The constructor of giscanner/ccompiler.py *)

Module Distutils.

(** The attributes of a distutils compiler object the constructor reads or
    sets: its class, [dll_libraries], [preprocessor], [compiler] and
    [executables['compiler']]. *)
Record instance := Instance {
  class : CCompiler.compiler_class;
  dll_libraries : list string;
  preprocessor : option (list string);
  compiler : list string;
  executables_compiler : list string
}.

(** The three distutils functions the constructor calls.
    [customize_compiler] changes its argument in place; here it returns the
    object as it is after the call. *)
Record library := Library {
  get_default_compiler : string;
  new_compiler : string -> instance;
  customize_compiler : instance -> instance
}.

End Distutils.

Module CCompilerInit.
Import CCompiler.

(** Indexing the empty list raises [IndexError]; every other failure of the
    constructor is an exception of [exn]. *)
Inductive failure :=
| Fatal (e : exn)
| IndexError.

(** The object built, the distutils compiler it holds, and [os.environ] as
    the constructor leaves it.  (On Windows [os.environ] folds the case of
    its keys; the keys below stand for their folded forms.) *)
Record constructed := Constructed {
  self : CCompiler;
  instance : Distutils.instance;
  os_environ : gmap string string
}.

(** [self] while the constructor runs: [compiler] is set, the two string
    attributes still have their class defaults. *)
Definition unfinished (i : Distutils.instance) : CCompiler :=
  {| compiler := Distutils.class i;
     compiler_cmd := "";
     _cflags_no_deprecation_warnings := "" |}.

Definition is_Mingw32CCompiler (i : Distutils.instance) : bool :=
  match Distutils.class i with
  | Mingw32CCompiler => true
  | _ => false
  end.

(** [environ] is the argument of that name, [os_environ] the process
    environment the MSVC branch reads and writes. *)
Definition __init__ (lib : Distutils.library)
    (os_environ : gmap string string)
    (environ : gmap string string) (osname : string)
    (compiler_name : option string)
  : failure + constructed :=
  let chosen : exn + string :=
    if String.eqb osname "nt" then
      let compiler_name :=
        match compiler_name with
        | None =>
            if bool_decide (environ !! "MSYSTEM" = Some "MINGW32")
               || bool_decide (environ !! "MSYSTEM" = Some "MINGW64")
            then "mingw32"
            else Distutils.get_default_compiler lib
        | Some name => name
        end in
      if negb (String.eqb compiler_name "msvc")
         && negb (String.eqb compiler_name "mingw32")
      then inl (SystemExit ("Specified Compiler '" +:+ compiler_name
                            +:+ "' is unsupported."))
      else inr compiler_name
    else inr (Distutils.get_default_compiler lib) in
  match chosen with
  | inl e => inl (Fatal e)
  | inr compiler_name =>
      (* Now, create the distutils ccompiler instance *)
      let i := Distutils.customize_compiler lib
                 (Distutils.new_compiler lib compiler_name) in
      let i :=
        if is_Mingw32CCompiler i then
          let dll_libraries :=
            if bool_decide (Distutils.dll_libraries i <> ["msvcrt"]) then []
            else Distutils.dll_libraries i in
          let preprocessor :=
            match Distutils.preprocessor i with
            | None => Some (Distutils.compiler i ++ ["-E"])
            | Some p => Some p
            end in
          Distutils.Instance (Distutils.class i) dll_libraries preprocessor
                             (Distutils.compiler i)
                             (Distutils.executables_compiler i)
        else i in
      if check_is_msvc (unfinished i) then
        let os_environ := <["DISTUTILS_USE_SDK" := "1"]> os_environ in
        let os_environ :=
          match os_environ !! "MSSdk" with
          | Some _ => os_environ
          | None =>
              match os_environ !! "WindowsSDKDir" with
              | Some dir => <["MSSdk" := dir]> os_environ
              | None =>
                  match os_environ !! "VCInstallDir" with
                  | Some dir =>
                      if negb (String.eqb dir "") then
                        <["MSSdk" := dir]> os_environ
                      else os_environ
                  | None => os_environ
                  end
              end
          end in
        inr (Constructed
               {| compiler := Distutils.class i;
                  compiler_cmd := "cl.exe";
                  _cflags_no_deprecation_warnings := "-wd4996" |}
               i os_environ)
      else
        let cmd : failure + string :=
          if is_Mingw32CCompiler i then
            match Distutils.compiler i with
            | c :: _ => inr c
            | [] => inl IndexError
            end
          else inr (PyStr.join "" (Distutils.executables_compiler i)) in
        match cmd with
        | inl f => inl f
        | inr compiler_cmd =>
            inr (Constructed
                   {| compiler := Distutils.class i;
                      compiler_cmd := compiler_cmd;
                      _cflags_no_deprecation_warnings :=
                        "-Wno-deprecated-declarations" |}
                   i os_environ)
        end
  end.

End CCompilerInit.

(** ** More concrete hosts *)

Module Cases.
Import Os.

(** A home directory and nothing below it. *)
Definition world_bare : world :=
  World {[ Demo.home := Dir 0 ]} 10 Demo.env Demo.no_faults.

(** The same after the two cache directories were made at time 10. *)
Definition world_ready : world :=
  World (<[ Demo.cache_dir := Dir 10 ]>
           (<[ "/home/u/.cache" := Dir 10 ]> {[ Demo.home := Dir 0 ]}))
        10 Demo.env Demo.no_faults.

(** No HOME in the environment. *)
Definition world_homeless : world := World ∅ 10 ∅ Demo.no_faults.

(** A compiler that prints nothing about its library directories. *)
Definition silent_host : CCompiler.host :=
  CCompiler.Host ∅ Os.os_path_join (fun _ => true) (fun _ => false)
    (fun _ => Demo.line "install: /mingw/lib/gcc/")
    (fun _ => None) (fun prog => prog).

(** A compiler that prints two lines of library directories. *)
Definition two_line_host : CCompiler.host :=
  CCompiler.Host ∅ Os.os_path_join (fun _ => false) (fun _ => false)
    (fun _ => Demo.line "libraries: /first"
              +:+ Demo.line "libraries: /second;=/third"
              +:+ Demo.line "programs: /bin")
    (fun _ => None) (fun prog => prog).

(** A distutils whose default compiler is msvc; its mingw32 compiler links
    against msvcr90 and has no preprocessor set. *)
Definition distutils : Distutils.library :=
  Distutils.Library "msvc"
    (fun name =>
       if String.eqb name "mingw32" then
         Distutils.Instance CCompiler.Mingw32CCompiler ["msvcr90"] None
                            ["gcc"; "-O"; "-Wall"] ["gcc"]
       else if String.eqb name "msvc" then
         Distutils.Instance CCompiler.MSVCCompiler [] None [] ["cl.exe"]
       else
         Distutils.Instance CCompiler.UnixCCompiler [] None [] ["cc"])
    (fun i => i).

(** A Visual Studio command prompt that names its SDK in WindowsSDKDir. *)
Definition vs_environ : gmap string string :=
  <[ "WindowsSDKDir" := "C:/sdk" ]> {[ "VCInstallDir" := "C:/vc" ]}.

(** What the constructor builds from [distutils] at that prompt, *)
Definition built_msvc : CCompilerInit.constructed :=
  CCompilerInit.Constructed
    {| CCompiler.compiler := CCompiler.MSVCCompiler;
       CCompiler.compiler_cmd := "cl.exe";
       CCompiler._cflags_no_deprecation_warnings := "-wd4996" |}
    (Distutils.Instance CCompiler.MSVCCompiler [] None [] ["cl.exe"])
    (<[ "MSSdk" := "C:/sdk" ]> (<[ "DISTUTILS_USE_SDK" := "1" ]> vs_environ)).

(** and what it builds when asked for mingw32. *)
Definition built_mingw : CCompilerInit.constructed :=
  CCompilerInit.Constructed
    {| CCompiler.compiler := CCompiler.Mingw32CCompiler;
       CCompiler.compiler_cmd := "gcc";
       CCompiler._cflags_no_deprecation_warnings :=
         "-Wno-deprecated-declarations" |}
    (Distutils.Instance CCompiler.Mingw32CCompiler []
                        (Some ["gcc"; "-O"; "-Wall"; "-E"])
                        ["gcc"; "-O"; "-Wall"] ["gcc"])
    vs_environ.

End Cases.

(** * Properties of the cache store *)

Section CacheStoreFacts.
Import Os CacheStore.

(** ** One step of each library call *)

Lemma exists_present w p n :
  fault_free w -> fs w !! p = Some n -> os_path_exists p w = Return true w.
Proof. intros Hf Hp. unfold os_path_exists, stat. by rewrite Hf, Hp. Qed.

Lemma exists_missing w p :
  fault_free w -> fs w !! p = None -> os_path_exists p w = Return false w.
Proof. intros Hf Hp. unfold os_path_exists, stat. by rewrite Hf, Hp. Qed.

Lemma mtime_present w p n :
  fault_free w -> fs w !! p = Some n ->
  os_stat_st_mtime p w = Return (st_mtime n) w.
Proof. intros Hf Hp. unfold os_stat_st_mtime, stat. by rewrite Hf, Hp. Qed.

Lemma cache_is_valid_present w p q n m :
  fault_free w -> fs w !! p = Some n -> fs w !! q = Some m ->
  _cache_is_valid p q w = Return (st_mtime m <=? st_mtime n) w.
Proof.
  intros Hf Hp Hq. unfold _cache_is_valid, bind.
  rewrite (mtime_present w p n Hf Hp), (mtime_present w q m Hf Hq). done.
Qed.

Lemma fault_free_with_fs w m : fault_free w -> fault_free (with_fs w m).
Proof. intros Hf c. apply Hf. Qed.

Lemma fault_free_touch w p t : fault_free w -> fault_free (touch p t w).
Proof.
  intros Hf c. unfold touch. destruct (fs w !! p) as [[]|]; apply Hf.
Qed.

Lemma written_slot w p v :
  fs (written w p v) !! p = Some (File (clock w) (Pickled v)).
Proof. apply lookup_insert_eq. Qed.

Lemma written_other w p q v :
  p <> q -> fs (written w p v) !! q = fs w !! q.
Proof. intros Hne. cbn. by rewrite !lookup_insert_ne. Qed.

Lemma open_w_then_dump w p v :
  fault_free w ->
  (forall t, fs w !! p <> Some (Dir t)) ->
  bind (open_w p)
       (fun fd => try_except (cPickle_dump v fd)
          (fun e => match e with
                    | IOError en =>
                        Some (bind (IOError_getattr en "errno") (fun a =>
                              bind (IOError_getattr en "ENOSPC") (fun b =>
                              if decide (a = b) then ret tt
                              else raise (IOError en))))
                    | _ => None
                    end)) w
  = Return tt (written w p v).
Proof.
  intros Hf Hnd. unfold bind, open_w, try_except, cPickle_dump.
  rewrite Hf.
  destruct (fs w !! p) as [[t c|t]|] eqn:Hp; cbn; try by rewrite Hf.
  by destruct (Hnd t).
Qed.

(** [store] writes when the slot is free or holds a stale file. *)
Lemma store_writes cs d w k v n :
  _directory cs = Some d ->
  fault_free w ->
  fs w !! k = Some n ->
  Spec.no_valid_entry w (os_path_join d (Sha1.hexdigest k)) (st_mtime n) ->
  store cs k v w
  = Return tt (written w (os_path_join d (Sha1.hexdigest k)) v).
Proof.
  intros Hd Hf Hk Hfree. unfold store, _get_filename. rewrite Hd.
  set (sf := os_path_join d (Sha1.hexdigest k)) in *.
  unfold Spec.no_valid_entry in Hfree.
  destruct (fs w !! sf) as [[ms c|ms]|] eqn:Hsf; [| done |].
  - unfold bind at 1. rewrite (exists_present w sf _ Hf Hsf).
    unfold bind at 1.
    rewrite (cache_is_valid_present w sf k _ _ Hf Hsf Hk). cbn [st_mtime].
    destruct (Z.leb_spec (st_mtime n) ms) as [Hle|_]; [lia|].
    apply open_w_then_dump; [done|]. intros t. by rewrite Hsf.
  - unfold bind at 1. rewrite (exists_missing w sf Hf Hsf).
    unfold bind at 1, ret at 1.
    apply open_w_then_dump; [done|]. intros t. by rewrite Hsf.
Qed.

(** The slot of a key that has no valid entry is not the key's own file. *)
Lemma slot_differs w sf k n :
  fs w !! k = Some n -> Spec.no_valid_entry w sf (st_mtime n) -> sf <> k.
Proof.
  intros Hk Hfree ->. unfold Spec.no_valid_entry in Hfree.
  rewrite Hk in Hfree. destruct n; cbn in Hfree; lia.
Qed.

(** [load] hands back a complete pickle that is at least as new as the
    source. *)
Lemma load_valid cs d w k v ms n :
  _directory cs = Some d ->
  fault_free w ->
  fs w !! os_path_join d (Sha1.hexdigest k) = Some (File ms (Pickled v)) ->
  fs w !! k = Some n ->
  st_mtime n <= ms ->
  load cs k w = Return v w.
Proof.
  intros Hd Hf Hsf Hk Hle. unfold load, _get_filename. rewrite Hd.
  set (sf := os_path_join d (Sha1.hexdigest k)) in *.
  unfold bind at 1. unfold try_except, bind at 1, open_r.
  rewrite Hf, Hsf. cbn [ret].
  unfold bind. rewrite (cache_is_valid_present w sf k _ _ Hf Hsf Hk).
  cbn [st_mtime]. destruct (Z.leb_spec (st_mtime n) ms) as [_|Hlt]; [|lia].
  cbn [negb]. unfold cPickle_load. by rewrite Hf, Hsf.
Qed.

(** ** Store, then load *)

(** C1, as stated, fails: with caching enabled, the source present and no
    system call failing, [store] of 2 over a valid entry holding 1 writes
    nothing, and [load] hands back 1. *)
Lemma store_load_round_trip_fails : ~ Spec.store_load_round_trip.
Proof.
  intros Hclaim.
  destruct (Hclaim Demo.enabled Demo.cache_dir Demo.world_cached Demo.key
                   (PInt 2) (File 5 Garbled))
    as (w1 & w2 & Hstore & Hload).
  - reflexivity.
  - intros c. reflexivity.
  - vm_compute. reflexivity.
  - assert (Hs : store Demo.enabled Demo.key (PInt 2) Demo.world_cached
                 = Return tt Demo.world_cached) by (vm_compute; reflexivity).
    rewrite Hs in Hstore. injection Hstore as <-.
    assert (Hl : load Demo.enabled Demo.key Demo.world_cached
                 = Return (PInt 1) Demo.world_cached)
      by (vm_compute; reflexivity).
    rewrite Hl in Hload. discriminate Hload.
Qed.

(** C1, amended: with caching enabled, no system call failing, the source
    present and not dated after the clock, and no valid entry for the key
    in the cache, [store k v] returns and [load k] right after it returns
    [v] (and changes nothing). *)
Theorem store_then_load cs d w k v n :
  _directory cs = Some d ->
  fault_free w ->
  fs w !! k = Some n ->
  st_mtime n <= clock w ->
  Spec.no_valid_entry w (os_path_join d (Sha1.hexdigest k)) (st_mtime n) ->
  exists w1,
    store cs k v w = Return tt w1 /\ load cs k w1 = Return v w1.
Proof.
  intros Hd Hf Hk Hnow Hfree.
  exists (written w (os_path_join d (Sha1.hexdigest k)) v). split.
  - by apply store_writes with n.
  - apply (load_valid cs d _ k v (clock w) n Hd).
    + by apply fault_free_with_fs.
    + apply written_slot.
    + rewrite written_other; [done|]. by apply slot_differs with w n.
    + done.
Qed.

Lemma store_then_load_witness :
  exists w1,
    store Demo.enabled Demo.key (PInt 3) Demo.world_empty = Return tt w1
    /\ load Demo.enabled Demo.key w1 = Return (PInt 3) w1.
Proof.
  apply (store_then_load Demo.enabled Demo.cache_dir Demo.world_empty
                         Demo.key (PInt 3) (File 5 Garbled)).
  - reflexivity.
  - intros c. reflexivity.
  - vm_compute. reflexivity.
  - vm_compute. discriminate.
  - vm_compute. exact I.
Defined.

(** ** A touched source *)

(** A store file older than the source is left alone and not read. *)
Lemma load_skips_stale cs d w k ms c n :
  _directory cs = Some d ->
  fault_free w ->
  fs w !! os_path_join d (Sha1.hexdigest k) = Some (File ms c) ->
  fs w !! k = Some n ->
  ms < st_mtime n ->
  load cs k w = Return PNone w.
Proof.
  intros Hd Hf Hsf Hk Hlt.
  unfold load, _get_filename. rewrite Hd.
  set (sf := os_path_join d (Sha1.hexdigest k)) in *.
  unfold bind at 1. unfold try_except, bind at 1, open_r.
  rewrite Hf, Hsf. cbn [ret].
  unfold bind. rewrite (cache_is_valid_present w sf k _ _ Hf Hsf Hk).
  cbn [st_mtime]. destruct (Z.leb_spec (st_mtime n) ms) as [Hle|_]; [lia|].
  reflexivity.
Qed.

(** C2: when the source is strictly newer than the store file, [load]
    returns [None] and leaves the world as it was, the stale store file
    included. *)
Theorem load_stale_entry cs d w k ms c n :
  _directory cs = Some d ->
  fault_free w ->
  fs w !! os_path_join d (Sha1.hexdigest k) = Some (File ms c) ->
  fs w !! k = Some n ->
  ms < st_mtime n ->
  exists w',
    load cs k w = Return PNone w'
    /\ w' = w
    /\ fs w' !! os_path_join d (Sha1.hexdigest k) = Some (File ms c).
Proof.
  intros Hd Hf Hsf Hk Hlt. exists w.
  split; [by apply load_skips_stale with d ms c n | done].
Qed.

(** The whole sequence: [store] writes the entry, the source is touched at
    a later time [t], and [load] finds nothing and keeps the entry. *)
Lemma store_touch_load cs d w k v n t :
  _directory cs = Some d ->
  fault_free w ->
  fs w !! k = Some n ->
  Spec.no_valid_entry w (os_path_join d (Sha1.hexdigest k)) (st_mtime n) ->
  clock w < t ->
  let w1 := written w (os_path_join d (Sha1.hexdigest k)) v in
  let w2 := touch k t w1 in
  store cs k v w = Return tt w1
  /\ load cs k w2 = Return PNone w2
  /\ fs w2 !! os_path_join d (Sha1.hexdigest k)
     = Some (File (clock w) (Pickled v)).
Proof.
  intros Hd Hf Hk Hfree Ht w1 w2.
  set (sf := os_path_join d (Sha1.hexdigest k)) in *.
  assert (Hne : sf <> k) by (by apply slot_differs with w n).
  assert (Hk1 : fs w1 !! k = Some n) by (subst w1; by rewrite written_other).
  assert (Hsf2 : fs w2 !! sf = Some (File (clock w) (Pickled v))).
  { subst w2. unfold touch. rewrite Hk1.
    destruct n; cbn [fs with_fs]; rewrite lookup_insert_ne by done;
      apply written_slot. }
  assert (Hk2 : exists n', fs w2 !! k = Some n' /\ st_mtime n' = t).
  { subst w2. unfold touch. rewrite Hk1.
    destruct n; cbn [fs with_fs]; rewrite lookup_insert_eq; eauto. }
  destruct Hk2 as (n' & Hk2 & Hn').
  split; [by apply store_writes with n|]. split; [|done].
  apply load_skips_stale with d (clock w) (Pickled v) n'; try done.
  - by apply fault_free_touch, fault_free_with_fs.
  - lia.
Qed.

(** The source of the demo is stored at time 10 and touched at time 20. *)
Lemma load_stale_entry_witness :
  store Demo.enabled Demo.key (PInt 3) Demo.world_empty
  = Return tt (written Demo.world_empty Demo.slot (PInt 3))
  /\ exists w',
       load Demo.enabled Demo.key
            (touch Demo.key 20 (written Demo.world_empty Demo.slot (PInt 3)))
       = Return PNone w'
       /\ w' = touch Demo.key 20 (written Demo.world_empty Demo.slot (PInt 3))
       /\ fs w' !! os_path_join Demo.cache_dir (Sha1.hexdigest Demo.key)
          = Some (File 10 (Pickled (PInt 3))).
Proof.
  split; [vm_compute; reflexivity|].
  apply (load_stale_entry Demo.enabled Demo.cache_dir _ Demo.key 10
                          (Pickled (PInt 3)) (File 20 Garbled)).
  - reflexivity.
  - intros c. reflexivity.
  - vm_compute. reflexivity.
  - vm_compute. reflexivity.
  - vm_compute. reflexivity.
Defined.

(** ** A second store *)

(** [store] returns at once, writing nothing, when the slot holds an entry
    at least as new as the source. *)
Lemma store_skips cs d w k v e n :
  _directory cs = Some d ->
  fault_free w ->
  fs w !! os_path_join d (Sha1.hexdigest k) = Some e ->
  fs w !! k = Some n ->
  st_mtime n <= st_mtime e ->
  store cs k v w = Return tt w.
Proof.
  intros Hd Hf Hsf Hk Hle. unfold store, _get_filename. rewrite Hd.
  set (sf := os_path_join d (Sha1.hexdigest k)) in *.
  unfold bind at 1. rewrite (exists_present w sf _ Hf Hsf).
  unfold bind at 1. rewrite (cache_is_valid_present w sf k _ _ Hf Hsf Hk).
  destruct (Z.leb_spec (st_mtime n) (st_mtime e)) as [_|Hlt]; [done|lia].
Qed.

(** With caching disabled nothing is stored and nothing is found. *)
Lemma disabled_store cs k v w :
  _directory cs = None -> store cs k v w = Return tt w.
Proof. intros Hd. unfold store, _get_filename. by rewrite Hd. Qed.

Lemma disabled_load cs k w :
  _directory cs = None -> load cs k w = Return PNone w.
Proof. intros Hd. unfold load, _get_filename. by rewrite Hd. Qed.

(** C3, as stated, fails: with caching disabled both stores return without
    writing and [load] returns [None], not the first value. *)
Lemma second_store_keeps_first_fails : ~ Spec.second_store_keeps_first.
Proof.
  intros Hclaim.
  destruct (Hclaim Demo.disabled Demo.world_empty Demo.key (PInt 1) (PInt 2)
                   (File 5 Garbled))
    as (w1 & w2 & Hs1 & _ & Hload).
  - intros c. reflexivity.
  - vm_compute. reflexivity.
  - rewrite disabled_store in Hs1 by reflexivity. injection Hs1 as <-.
    rewrite disabled_load in Hload by reflexivity. discriminate Hload.
Qed.

(** C3, amended: with caching enabled, no system call failing, the source
    present and not dated after the clock, and no valid entry for the key
    before the first call, [store k v1] writes, [store k v2] after it
    returns without changing anything, and [load k] returns [v1]. *)
Theorem second_store_is_noop cs d w k v1 v2 n :
  _directory cs = Some d ->
  fault_free w ->
  fs w !! k = Some n ->
  st_mtime n <= clock w ->
  Spec.no_valid_entry w (os_path_join d (Sha1.hexdigest k)) (st_mtime n) ->
  exists w1,
    store cs k v1 w = Return tt w1
    /\ store cs k v2 w1 = Return tt w1
    /\ load cs k w1 = Return v1 w1.
Proof.
  intros Hd Hf Hk Hnow Hfree.
  set (sf := os_path_join d (Sha1.hexdigest k)) in *.
  assert (Hne : sf <> k) by (by apply slot_differs with w n).
  assert (Hk1 : fs (written w sf v1) !! k = Some n)
    by (by rewrite written_other).
  exists (written w sf v1). split; [|split].
  - by apply store_writes with n.
  - apply (store_skips cs d _ k v2 (File (clock w) (Pickled v1)) n Hd).
    + by apply fault_free_with_fs.
    + apply written_slot.
    + done.
    + done.
  - apply (load_valid cs d _ k v1 (clock w) n Hd).
    + by apply fault_free_with_fs.
    + apply written_slot.
    + done.
    + done.
Qed.

Lemma second_store_is_noop_witness :
  exists w1,
    store Demo.enabled Demo.key (PInt 1) Demo.world_empty = Return tt w1
    /\ store Demo.enabled Demo.key (PInt 2) w1 = Return tt w1
    /\ load Demo.enabled Demo.key w1 = Return (PInt 1) w1.
Proof.
  apply (second_store_is_noop Demo.enabled Demo.cache_dir Demo.world_empty
                              Demo.key (PInt 1) (PInt 2) (File 5 Garbled)).
  - reflexivity.
  - intros c. reflexivity.
  - vm_compute. reflexivity.
  - vm_compute. discriminate.
  - vm_compute. exact I.
Defined.

(** ** A truncated entry *)

(** C4: a store file that is not stale and holds a truncated pickle makes
    [load] return [None] and unlink the file; a [store] with the same key
    after that writes its value. *)
Theorem load_truncated_then_store cs d w k v ms i n :
  _directory cs = Some d ->
  fault_free w ->
  fs w !! os_path_join d (Sha1.hexdigest k) = Some (File ms (Truncated i)) ->
  fs w !! k = Some n ->
  st_mtime n <= ms ->
  exists w1 w2,
    load cs k w = Return PNone w1
    /\ fs w1 !! os_path_join d (Sha1.hexdigest k) = None
    /\ store cs k v w1 = Return tt w2
    /\ fs w2 !! os_path_join d (Sha1.hexdigest k)
       = Some (File (clock w) (Pickled v)).
Proof.
  intros Hd Hf Hsf Hk Hle.
  set (sf := os_path_join d (Sha1.hexdigest k)) in *.
  set (w1 := with_fs w (delete sf (fs w))).
  assert (Hf1 : fault_free w1) by (by apply fault_free_with_fs).
  assert (Hgone : fs w1 !! sf = None) by apply lookup_delete_eq.
  exists w1, (written w1 sf v). split; [|split; [done|split]].
  - unfold load, _get_filename. rewrite Hd. fold sf.
    unfold bind at 1. unfold try_except at 1, bind at 1, open_r.
    rewrite Hf, Hsf. cbn [ret].
    unfold bind at 1. rewrite (cache_is_valid_present w sf k _ _ Hf Hsf Hk).
    cbn [st_mtime]. destruct (Z.leb_spec (st_mtime n) ms) as [_|Hlt]; [|lia].
    cbn [negb]. unfold try_except at 1, cPickle_load. rewrite Hf, Hsf.
    unfold bind, _purge_cache, try_except, os_unlink. by rewrite Hf, Hsf.
  - unfold store, _get_filename. rewrite Hd. fold sf.
    unfold bind at 1. rewrite (exists_missing w1 sf Hf1 Hgone).
    unfold bind at 1, ret at 1.
    apply open_w_then_dump; [done|]. intros t. by rewrite Hgone.
  - exact (written_slot w1 sf v).
Qed.

Lemma load_truncated_then_store_witness :
  exists w1 w2,
    load Demo.enabled Demo.key Demo.world_truncated = Return PNone w1
    /\ fs w1 !! os_path_join Demo.cache_dir (Sha1.hexdigest Demo.key) = None
    /\ store Demo.enabled Demo.key (PInt 3) w1 = Return tt w2
    /\ fs w2 !! os_path_join Demo.cache_dir (Sha1.hexdigest Demo.key)
       = Some (File (clock Demo.world_truncated) (Pickled (PInt 3))).
Proof.
  apply (load_truncated_then_store Demo.enabled Demo.cache_dir
           Demo.world_truncated Demo.key (PInt 3) 7 0%nat (File 5 Garbled)).
  - reflexivity.
  - intros c. reflexivity.
  - vm_compute. reflexivity.
  - vm_compute. reflexivity.
  - vm_compute. discriminate.
Defined.

(** ** A failing write *)

(** C5: whatever error number the failing write reports, ENOSPC included,
    the handler's [e.ENOSPC] raises [AttributeError], which [store] lets
    through; the file it opened stays behind, empty. *)
Theorem store_write_failure cs d w k v n e :
  _directory cs = Some d ->
  faults w (SysStat (os_path_join d (Sha1.hexdigest k))) = None ->
  faults w (SysStat k) = None ->
  faults w (SysOpenW (os_path_join d (Sha1.hexdigest k))) = None ->
  faults w (SysWrite (os_path_join d (Sha1.hexdigest k))) = Some e ->
  fs w !! k = Some n ->
  Spec.no_valid_entry w (os_path_join d (Sha1.hexdigest k)) (st_mtime n) ->
  store cs k v w
  = Raise AttributeError
      (with_fs w (<[os_path_join d (Sha1.hexdigest k)
                    := File (clock w) (Truncated 0)]> (fs w))).
Proof.
  intros Hd Hstat Hstatk Hopen Hwrite Hk Hfree.
  unfold store, _get_filename. rewrite Hd.
  set (sf := os_path_join d (Sha1.hexdigest k)) in *.
  unfold Spec.no_valid_entry in Hfree.
  unfold bind at 1, os_path_exists, stat. rewrite Hstat.
  destruct (fs w !! sf) as [[ms c|ms]|] eqn:Hsf; [| done |].
  - unfold bind at 1, _cache_is_valid, bind at 1, os_stat_st_mtime, stat.
    rewrite Hstat, Hsf. unfold bind at 1. rewrite Hstatk, Hk.
    cbn [st_mtime ret]. destruct (Z.leb_spec (st_mtime n) ms); [lia|].
    unfold bind at 1, open_w. rewrite Hopen, Hsf.
    unfold try_except, cPickle_dump. cbn. by rewrite Hwrite.
  - unfold bind at 1, ret at 1.
    unfold bind at 1, open_w. rewrite Hopen, Hsf.
    unfold try_except, cPickle_dump. cbn. by rewrite Hwrite.
Qed.

Lemma store_write_failure_witness :
  store Demo.enabled Demo.key (PInt 3) Demo.world_full
  = Raise AttributeError
      (with_fs Demo.world_full
         (<[os_path_join Demo.cache_dir (Sha1.hexdigest Demo.key)
            := File (clock Demo.world_full) (Truncated 0)]>
            (fs Demo.world_full))).
Proof.
  apply (store_write_failure Demo.enabled Demo.cache_dir Demo.world_full
                             Demo.key (PInt 3) (File 5 Garbled) ENOSPC).
  - reflexivity.
  - reflexivity.
  - reflexivity.
  - reflexivity.
  - reflexivity.
  - vm_compute. reflexivity.
  - vm_compute. exact I.
Defined.

(** ** Constructing the store *)

(** C6: when [~/.cache] is missing and [os.mkdir] fails with an error
    number other than EPERM (EACCES, permission denied, is what a home
    directory without write permission gives), the constructor raises
    that [OSError]. *)
Theorem init_mkdir_failure w home e :
  environ w !! "HOME" = Some home ->
  faults w (SysStat (os_path_join home ".cache")) = None ->
  fs w !! os_path_join home ".cache" = None ->
  faults w (SysMkdir (os_path_join home ".cache")) = Some e ->
  e <> EPERM ->
  __init__ w = Raise (OSError e) w.
Proof.
  intros Hhome Hstat Hmissing Hmkdir Hne.
  unfold __init__, try_except, bind at 1, _get_cachedir.
  unfold bind at 1, os_environ_getitem. rewrite Hhome.
  unfold bind at 1, os_path_exists, stat. rewrite Hstat, Hmissing.
  cbn [negb]. unfold bind at 1, os_mkdir. rewrite Hmkdir.
  unfold raise. by destruct (decide (e <> EPERM)).
Qed.

Lemma init_mkdir_failure_witness :
  __init__ Demo.world_readonly_home
  = Raise (OSError EACCES) Demo.world_readonly_home.
Proof.
  apply (init_mkdir_failure Demo.world_readonly_home Demo.home EACCES).
  - vm_compute. reflexivity.
  - reflexivity.
  - vm_compute. reflexivity.
  - reflexivity.
  - discriminate.
Defined.

(** The parts of the claim the code does keep: EPERM disables caching, *)
Lemma init_mkdir_eperm w home :
  environ w !! "HOME" = Some home ->
  faults w (SysStat (os_path_join home ".cache")) = None ->
  fs w !! os_path_join home ".cache" = None ->
  faults w (SysMkdir (os_path_join home ".cache")) = Some EPERM ->
  __init__ w = Return {| _directory := None |} w.
Proof.
  intros Hhome Hstat Hmissing Hmkdir.
  unfold __init__, try_except, bind at 1, _get_cachedir.
  unfold bind at 1, os_environ_getitem. rewrite Hhome.
  unfold bind at 1, os_path_exists, stat. rewrite Hstat, Hmissing.
  cbn [negb]. unfold bind at 1, os_mkdir. by rewrite Hmkdir.
Qed.

(** so does a regular file where the cache directory should be, *)
Lemma init_file_in_the_way w home t c t' :
  environ w !! "HOME" = Some home ->
  fault_free w ->
  fs w !! os_path_join home ".cache" = Some (Dir t') ->
  fs w !! os_path_join (os_path_join home ".cache") "g-ir-scanner"
  = Some (File t c) ->
  __init__ w = Return {| _directory := None |} w.
Proof.
  intros Hhome Hf Hcache Hfile.
  unfold __init__, try_except, bind at 1, _get_cachedir.
  unfold bind at 1, os_environ_getitem. rewrite Hhome.
  unfold bind at 1. rewrite (exists_present w _ _ Hf Hcache).
  cbn [negb]. unfold bind at 1, ret at 1.
  unfold bind at 1. rewrite (exists_present w _ _ Hf Hfile).
  cbn [negb]. unfold bind at 1, os_path_isdir, stat. by rewrite Hf, Hfile.
Qed.

(** and a store without a directory never touches the world. *)
Lemma disabled_is_inert cs k v w :
  _directory cs = None ->
  store cs k v w = Return tt w /\ load cs k w = Return PNone w.
Proof. intros Hd. split; [by apply disabled_store | by apply disabled_load]. Qed.

Example init_examples :
  __init__ Demo.world_eperm_home
  = Return {| _directory := None |} Demo.world_eperm_home
  /\ __init__ Demo.world_file_in_the_way
     = Return {| _directory := None |} Demo.world_file_in_the_way
  /\ exists w, __init__ (World {[ Demo.home := Dir 0 ]} 10 Demo.env
                               Demo.no_faults)
               = Return Demo.enabled w.
Proof.
  split; [|split]; [vm_compute; reflexivity .. |].
  eexists. vm_compute. reflexivity.
Qed.

End CacheStoreFacts.

(** * Properties of the compiler module *)

Section LinkFlags.
Import CCompiler.

Variable h : host.
Variable self : CCompiler.

Lemma decorate_loop (libraries : list string) : forall args,
  fold_left
    (fun args library =>
       if check_is_msvc self then args ++ [library +:+ ".lib"]
       else if PyStr.endswith library ".la" then args ++ [library]
            else args ++ ["-l" +:+ library])
    libraries args
  = args ++ map (Spec.decorate (check_is_msvc self)) libraries.
Proof.
  induction libraries as [|library rest IH]; intros args; cbn [fold_left map].
  - by rewrite app_nil_r.
  - rewrite IH. unfold Spec.decorate at 2.
    destruct (check_is_msvc self); [|destruct (PyStr.endswith library ".la")];
      by rewrite <- app_assoc.
Qed.

Lemma path_loop (libtool : bool) (libpaths : list string) : forall args,
  fold_left
    (fun args library_path =>
       if negb (check_is_msvc self) then
         let args := args ++ ["-L" +:+ library_path] in
         if os_path_isabs h library_path then
           if libtool then (args ++ ["-rpath"]) ++ [library_path]
           else args ++ ["-Wl,-rpath=" +:+ library_path]
         else args
       else args)
    libpaths args
  = args ++ flat_map (Spec.path_flags h (check_is_msvc self) libtool) libpaths.
Proof.
  induction libpaths as [|p rest IH]; intros args; cbn [fold_left flat_map].
  - by rewrite app_nil_r.
  - rewrite IH. unfold Spec.path_flags at 2.
    destruct (check_is_msvc self); cbn [negb]; [done|].
    destruct (os_path_isabs h p); [destruct libtool|];
      by rewrite <- ?app_assoc.
Qed.

(** C9: both builders append, for every library and in order, the name
    decorated as the text says: [<name>.lib] under MSVC, the name itself
    when it ends in [.la] and the toolchain is not MSVC, [-l<name>]
    otherwise. *)
Theorem link_flags_decorate args libtool libraries libpaths :
  get_external_link_flags self args libraries
  = args ++ map (Spec.decorate (check_is_msvc self)) libraries
  /\ get_internal_link_flags h self args libtool libraries libpaths
     = args ++ Spec.here_flags (check_is_msvc self) libtool
            ++ map (Spec.decorate (check_is_msvc self)) libraries
            ++ flat_map (Spec.path_flags h (check_is_msvc self) libtool)
                        libpaths.
Proof.
  split.
  - apply decorate_loop.
  - unfold get_internal_link_flags. rewrite path_loop, decorate_loop.
    unfold Spec.here_flags.
    destruct (check_is_msvc self); [|destruct libtool]; cbn [negb];
      rewrite <- ?app_assoc; reflexivity.
Qed.

End LinkFlags.

Example decorate_examples :
  CCompiler.get_external_link_flags Demo.cl [] ["foo"] = ["foo.lib"]
  /\ CCompiler.get_external_link_flags Demo.gcc [] ["foo"] = ["-lfoo"]
  /\ CCompiler.get_external_link_flags Demo.gcc [] ["libfoo.la"] = ["libfoo.la"]
  /\ CCompiler.get_external_link_flags Demo.cl [] ["libfoo.la"]
     = ["libfoo.la.lib"]
  /\ CCompiler.get_internal_link_flags Demo.mingw_host Demo.gcc ["-o"; "probe"]
       false ["foo"; "libbar.la"] ["/opt/lib"; "sub"]
     = ["-o"; "probe"; "-L."; "-Wl,-rpath=."; "-Wl,--no-as-needed";
        "-lfoo"; "libbar.la"; "-L/opt/lib"; "-Wl,-rpath=/opt/lib"; "-Lsub"]
  /\ CCompiler.get_internal_link_flags Demo.mingw_host Demo.cl [] false
       ["foo"; "libbar.la"] ["/opt/lib"]
     = ["foo.lib"; "libbar.la.lib"].
Proof. repeat split; reflexivity. Qed.

Section Resolver.
Import CCompiler.

Variable h : host.
Variable msvc : bool.
Variable args : list string.

(** ** The loops, innermost first *)

Lemma for_item_find line_tokens st :
  for_item line_tokens st
  = match List.find (fun item => PyStr.startswith item "__IMPORT_DESCRIPTOR_")
                    line_tokens with
    | Some item => resolved (PyStr.slice_from 20 item +:+ ".dll") st
    | None => st
    end.
Proof.
  induction line_tokens as [|item rest IH]; [done|]. cbn [for_item List.find].
  by destruct (PyStr.startswith item "__IMPORT_DESCRIPTOR_").
Qed.

Lemma for_line_descriptor lines st :
  found st = false ->
  for_line true lines st
  = match Spec.first_descriptor lines with
    | Some dll => resolved dll st
    | None => st
    end.
Proof.
  intros Hnf. induction lines as [|line rest IH]; [done|].
  cbn [for_line Spec.first_descriptor]. unfold Spec.import_descriptor.
  destruct (PyStr.contains "__IMPORT_DESCRIPTOR_" line).
  - rewrite for_item_find.
    destruct (List.find _ (PyStr.split_ws line)); [done|].
    by rewrite Hnf.
  - by rewrite Hnf.
Qed.

Lemma for_line_parse o st :
  found st = false ->
  for_line msvc (PyStr.splitlines o) st
  = match Spec.parse_output msvc o with
    | Some dll => resolved dll st
    | None => st
    end.
Proof.
  intros Hnf. unfold Spec.parse_output. destruct msvc.
  - by apply for_line_descriptor.
  - by destruct (PyStr.splitlines o).
Qed.

Lemma for_c_found l candidates st :
  found st = true -> for_c h msvc args l candidates st = st.
Proof. intros Hf. destruct candidates; cbn; [done|]. by rewrite Hf. Qed.

Lemma for_l_found libsearch candidates st :
  found st = true -> for_l h msvc args libsearch candidates st = st.
Proof. intros Hf. destruct libsearch; cbn; [done|]. by rewrite Hf. Qed.

Lemma after_nothing st : Spec.after st ([], None) = st.
Proof. destruct st. unfold Spec.after. cbn. by rewrite app_nil_r. Qed.

Lemma after_step st c cs r :
  Spec.after (called c st) (cs, r) = Spec.after st (c :: cs, r).
Proof.
  unfold Spec.after, called. cbn. destruct r; by rewrite <- app_assoc.
Qed.

Lemma for_c_probe l candidates : forall st,
  found st = false ->
  for_c h msvc args l candidates st
  = Spec.after st (Spec.probe h msvc args (map (os_path_join h l) candidates)).
Proof.
  induction candidates as [|c rest IH]; intros st Hnf.
  - by rewrite after_nothing.
  - cbn [for_c map Spec.probe]. rewrite Hnf.
    destruct (os_path_exists h (os_path_join h l c)).
    + rewrite for_line_parse by done.
      destruct (Spec.parse_output msvc _) as [dll|].
      * rewrite for_c_found by done.
        unfold Spec.after, resolved, called. cbn. by rewrite <- app_assoc.
      * rewrite IH by done.
        destruct (Spec.probe h msvc args _) as [cs r].
        by rewrite !after_step.
    + rewrite IH by done.
      destruct (Spec.probe h msvc args _) as [cs r].
      by rewrite after_step.
Qed.

(** Trying [ps] and then [qs] is trying [ps ++ qs]. *)
Lemma probe_app ps qs :
  Spec.probe h msvc args (ps ++ qs)
  = match Spec.probe h msvc args ps with
    | (cs, Some dll) => (cs, Some dll)
    | (cs, None) =>
        let '(cs', r) := Spec.probe h msvc args qs in (cs ++ cs', r)
    end.
Proof.
  induction ps as [|p rest IH]; cbn [app Spec.probe].
  - by destruct (Spec.probe h msvc args qs).
  - destruct (os_path_exists h p).
    + destruct (Spec.parse_output msvc _); [done|].
      rewrite IH. destruct (Spec.probe h msvc args rest) as [cs [dll|]];
        [done|]. by destruct (Spec.probe h msvc args qs).
    + rewrite IH. destruct (Spec.probe h msvc args rest) as [cs [dll|]];
        [done|]. by destruct (Spec.probe h msvc args qs).
Qed.

Lemma strip_marker_eq l :
  (if PyStr.startswith l "=" then PyStr.slice_from 1 l else l)
  = Spec.strip_marker l.
Proof.
  destruct l as [|c rest]; [done|].
  destruct c as [[] [] [] [] [] [] [] []]; cbn; try reflexivity;
    by destruct rest.
Qed.

Lemma after_after st cs cs' r :
  Spec.after (Spec.after st (cs, None)) (cs', r) = Spec.after st (cs ++ cs', r).
Proof. unfold Spec.after. cbn. destruct r; by rewrite <- app_assoc. Qed.

Lemma for_l_probe candidates libsearch : forall st,
  found st = false ->
  for_l h msvc args libsearch candidates st
  = Spec.after st
      (Spec.probe h msvc args
         (flat_map (fun l => map (os_path_join h (Spec.strip_marker l))
                                 candidates)
                   libsearch)).
Proof.
  induction libsearch as [|l rest IH]; intros st Hnf.
  - by rewrite after_nothing.
  - cbn [for_l flat_map]. rewrite Hnf, strip_marker_eq, probe_app.
    rewrite for_c_probe by done.
    destruct (Spec.probe h msvc args (map _ candidates)) as [cs [dll|]].
    + by rewrite for_l_found.
    + rewrite IH by done.
      destruct (Spec.probe h msvc args (flat_map _ rest)) as [cs' r].
      apply after_after.
Qed.

Variable libsearch : list string.

Lemma for_l_lib lib st :
  found st = false ->
  for_l h msvc args libsearch (Spec.candidate_names lib) st
  = Spec.after st (Spec.probe h msvc args (Spec.probes h libsearch lib)).
Proof. apply for_l_probe. Qed.

Lemma for_lib_spec libraries : forall shlibs0 not_resolved calls0,
  for_lib h msvc args libsearch libraries (shlibs0, not_resolved, calls0)
  = (shlibs0 ++ omap (Spec.resolution h msvc args libsearch) libraries,
     not_resolved
       ++ filter (fun lib => Spec.resolution h msvc args libsearch lib = None)
                 libraries,
     calls0 ++ flat_map (Spec.probe_calls h msvc args libsearch) libraries).
Proof.
  induction libraries as [|lib rest IH]; intros shlibs0 not_resolved calls0.
  - cbn. by rewrite !app_nil_r.
  - cbn [for_lib flat_map]. rewrite filter_cons. cbn [omap list_omap].
    change (for_l h msvc args libsearch _ ?st)
      with (for_l h msvc args libsearch (Spec.candidate_names lib) st).
    rewrite for_l_lib by done.
    assert (Hres : Spec.resolution h msvc args libsearch lib
                   = snd (Spec.probe h msvc args (Spec.probes h libsearch lib)))
      by done.
    assert (Hcalls : Spec.probe_calls h msvc args libsearch lib
                     = fst (Spec.probe h msvc args (Spec.probes h libsearch lib)))
      by done.
    rewrite Hres, Hcalls.
    destruct (Spec.probe h msvc args (Spec.probes h libsearch lib))
      as [cs [dll|]]; unfold Spec.after; cbn [fst snd found shlibs calls negb].
    + rewrite IH. rewrite decide_False by done.
      by rewrite <- !app_assoc.
    + rewrite IH. rewrite decide_True by done.
      by rewrite <- !app_assoc.
Qed.

(** ** What a search does *)

(** The existence checks of a search are made on the files in order, up
    to and including the first one that exists and parses, and on no file
    after it. *)
Lemma probe_shape ps :
  match Spec.probe h msvc args ps with
  | (cs, Some dll) =>
      exists tried p rest,
        ps = tried ++ p :: rest
        /\ Forall (Spec.passes h msvc args) tried
        /\ os_path_exists h p = true
        /\ Spec.parse_output msvc (popen h (args ++ [p])) = Some dll
        /\ Spec.checked cs = tried ++ [p]
        /\ last cs = Some (Popen (args ++ [p]))
  | (cs, None) => Forall (Spec.passes h msvc args) ps /\ Spec.checked cs = ps
  end.
Proof.
  induction ps as [|q rest IH]; cbn [Spec.probe]; [by split|].
  destruct (os_path_exists h q) eqn:Hq.
  - destruct (Spec.parse_output msvc (popen h (args ++ [q]))) as [dll|] eqn:Ho.
    + by exists [], q, rest.
    + destruct (Spec.probe h msvc args rest) as [cs [dll|]].
      * destruct IH as (tried & p & rest' & -> & Hpass & Hp & Hdll & Hck & Hl).
        exists (q :: tried), p, rest'. repeat split; try done.
        -- constructor; [by right | done].
        -- cbn. by rewrite <- Hck.
        -- destruct cs; [done|]. done.
      * destruct IH as [Hpass Hck]. split.
        -- constructor; [by right | done].
        -- cbn. by rewrite <- Hck.
  - destruct (Spec.probe h msvc args rest) as [cs [dll|]].
    + destruct IH as (tried & p & rest' & -> & Hpass & Hp & Hdll & Hck & Hl).
      exists (q :: tried), p, rest'. repeat split; try done.
      * constructor; [by left | done].
      * cbn. by rewrite <- Hck.
      * destruct cs; [done|]. done.
    + destruct IH as [Hpass Hck]. split.
      * constructor; [by left | done].
      * cbn. by rewrite <- Hck.
Qed.

Lemma probe_absent ps :
  (forall p, In p ps -> os_path_exists h p = false) ->
  snd (Spec.probe h msvc args ps) = None.
Proof.
  induction ps as [|q rest IH]; intros Habs; [done|]. cbn [Spec.probe].
  rewrite (Habs q) by (by left).
  specialize (IH (fun p Hp => Habs p (or_intror Hp))).
  by destruct (Spec.probe h msvc args rest).
Qed.

Lemma all_resolved libraries :
  filter (fun lib => Spec.resolution h msvc args libsearch lib = None) libraries
  = [] ->
  Forall2 (fun lib dll => Spec.resolution h msvc args libsearch lib = Some dll)
          libraries
          (omap (Spec.resolution h msvc args libsearch) libraries).
Proof.
  induction libraries as [|lib rest IH]; intros Hnone; [constructor|].
  rewrite filter_cons in Hnone. cbn [omap list_omap].
  destruct (Spec.resolution h msvc args libsearch lib) as [dll|] eqn:Hres.
  - rewrite decide_False in Hnone by done. constructor; [done | by apply IH].
  - by rewrite decide_True in Hnone.
Qed.

End Resolver.

Section ResolveWindowsLibs.
Import CCompiler.

Variable h : host.
Variable self : CCompiler.
Variable opts : options.

(** C8: the calls of a run are those of the set-up followed, library by
    library, by those of [Spec.probe] on [Spec.probes]: the five candidate
    names in the order of the text within each directory, the directory
    without its leading [=], and nothing after the first file whose output
    parses. *)
Theorem resolver_call_order libraries args libsearch calls0 :
  search_setup h self opts = inr (args, libsearch, calls0) ->
  snd (resolve_windows_libs h self libraries opts)
  = calls0
    ++ flat_map (Spec.probe_calls h (check_is_msvc self) args libsearch)
                libraries.
Proof.
  intros Hsetup. unfold resolve_windows_libs. rewrite Hsetup, for_lib_spec.
  cbn [app]. by destruct (0 <? length _)%nat.
Qed.

(** C10: a run that returns hands back one name per requested library, in
    the order of the request: the name that library resolves to. *)
Theorem resolver_one_per_library libraries shlibs :
  fst (resolve_windows_libs h self libraries opts) = inr shlibs ->
  length shlibs = length libraries
  /\ exists args libsearch calls0,
       search_setup h self opts = inr (args, libsearch, calls0)
       /\ Forall2
            (fun lib dll =>
               Spec.resolution h (check_is_msvc self) args libsearch lib
               = Some dll)
            libraries shlibs.
Proof.
  unfold resolve_windows_libs.
  destruct (search_setup h self opts) as [e|[[args libsearch] calls0]];
    [done|].
  rewrite for_lib_spec. cbn [app].
  destruct (filter _ libraries) as [|lib rest] eqn:Hnone; cbn; [|done].
  intros [= <-].
  pose proof (all_resolved h _ args libsearch libraries Hnone) as Hall.
  split; [symmetry; by apply Forall2_length in Hall|].
  by exists args, libsearch, calls0.
Qed.

(** C7: when some requested library has none of its candidate files in
    any search directory, the run ends in [SystemExit]; the message lists
    the requested libraries that do not resolve, and only those; the
    library without files is one of them. *)
Theorem resolver_failure_names_unresolved libraries args libsearch calls0 lib :
  search_setup h self opts = inr (args, libsearch, calls0) ->
  In lib libraries ->
  (forall p, In p (Spec.probes h libsearch lib) -> os_path_exists h p = false) ->
  fst (resolve_windows_libs h self libraries opts)
  = inl (SystemExit
           (Spec.failure_message
              (filter (fun l => Spec.resolution h (check_is_msvc self) args
                                                libsearch l = None)
                      libraries)))
  /\ In lib (filter (fun l => Spec.resolution h (check_is_msvc self) args
                                              libsearch l = None)
                    libraries)
  /\ forall l dll,
       Spec.resolution h (check_is_msvc self) args libsearch l = Some dll ->
       ~ In l (filter (fun l => Spec.resolution h (check_is_msvc self) args
                                                libsearch l = None)
                      libraries).
Proof.
  intros Hsetup Hin Habs.
  assert (Hres : forall l dll,
             Spec.resolution h (check_is_msvc self) args libsearch l = Some dll ->
             ~ In l (filter (fun l => Spec.resolution h (check_is_msvc self)
                                        args libsearch l = None) libraries)).
  { intros l dll Hl Hl'. apply list_elem_of_In, list_elem_of_filter in Hl'.
    destruct Hl' as [Hnone _]. by rewrite Hl in Hnone. }
  assert (Hlib : lib ∈ filter (fun l => Spec.resolution h (check_is_msvc self)
                                          args libsearch l = None) libraries).
  { apply list_elem_of_filter. split; [|by apply list_elem_of_In].
    by apply probe_absent. }
  split; [|split; [by apply list_elem_of_In | exact Hres]].
  unfold resolve_windows_libs. rewrite Hsetup, for_lib_spec. cbn [app].
  destruct (filter _ libraries) as [|l rest]; [|done].
  by apply elem_of_nil in Hlib.
Qed.

End ResolveWindowsLibs.

(** ** The resolver on the two demo hosts *)

Lemma resolver_call_order_witness :
  snd (CCompiler.resolve_windows_libs Demo.mingw_host Demo.gcc ["bar"]
                                      Demo.no_options)
  = [CCompiler.Popen ["gcc"; "-print-search-dirs"]]
    ++ flat_map (Spec.probe_calls Demo.mingw_host
                                  (CCompiler.check_is_msvc Demo.gcc)
                                  ["dlltool.exe"; "--identify"]
                                  ["/usr/lib"; "=/opt/lib"])
                ["bar"].
Proof.
  apply (resolver_call_order Demo.mingw_host Demo.gcc Demo.no_options ["bar"]).
  vm_compute. reflexivity.
Defined.

Lemma resolver_one_per_library_witness :
  length ["libbar-1.dll"] = length ["bar"]
  /\ exists args libsearch calls0,
       CCompiler.search_setup Demo.mingw_host Demo.gcc Demo.no_options
       = inr (args, libsearch, calls0)
       /\ Forall2
            (fun lib dll =>
               Spec.resolution Demo.mingw_host (CCompiler.check_is_msvc Demo.gcc)
                               args libsearch lib
               = Some dll)
            ["bar"] ["libbar-1.dll"].
Proof.
  apply (resolver_one_per_library Demo.mingw_host Demo.gcc Demo.no_options).
  vm_compute. reflexivity.
Defined.

Lemma resolver_failure_names_unresolved_witness :
  fst (CCompiler.resolve_windows_libs Demo.mingw_host Demo.gcc ["bar"; "baz"]
                                      Demo.no_options)
  = inl (SystemExit "ERROR: can't resolve libraries to shared libraries: baz").
Proof.
  destruct (resolver_failure_names_unresolved
              Demo.mingw_host Demo.gcc Demo.no_options ["bar"; "baz"]
              ["dlltool.exe"; "--identify"] ["/usr/lib"; "=/opt/lib"]
              [CCompiler.Popen ["gcc"; "-print-search-dirs"]] "baz")
    as [Hexit _].
  - vm_compute. reflexivity.
  - vm_compute. right. left. reflexivity.
  - intros p Hp. vm_compute in Hp.
    repeat (destruct Hp as [<-|Hp]; [vm_compute; reflexivity|]).
    destruct Hp.
  - rewrite Hexit. vm_compute. reflexivity.
Defined.

(** The scenarios of the text: [bar] is found in the second directory, whose
    entry carries the [=] marker; [baz] is found nowhere; under MSVC the
    import descriptor names the DLL. *)
Example resolver_scenarios :
  CCompiler.resolve_windows_libs Demo.mingw_host Demo.gcc ["bar"]
                                 Demo.no_options
  = (inr ["libbar-1.dll"],
     [CCompiler.Popen ["gcc"; "-print-search-dirs"];
      CCompiler.Exists "/usr/lib/libbar.dll.a";
      CCompiler.Exists "/usr/lib/libbar.a";
      CCompiler.Exists "/usr/lib/bar.dll.a";
      CCompiler.Exists "/usr/lib/bar.a";
      CCompiler.Exists "/usr/lib/bar.lib";
      CCompiler.Exists "/opt/lib/libbar.dll.a";
      CCompiler.Popen ["dlltool.exe"; "--identify"; "/opt/lib/libbar.dll.a"]])
  /\ fst (CCompiler.resolve_windows_libs Demo.mingw_host Demo.gcc
                                         ["bar"; "baz"] Demo.no_options)
     = inl (SystemExit "ERROR: can't resolve libraries to shared libraries: baz")
  /\ fst (CCompiler.resolve_windows_libs Demo.msvc_host Demo.cl ["foo"]
                                         Demo.no_options)
     = inr ["foo-2.dll"]
  /\ fst (CCompiler.resolve_windows_libs Demo.msvc_host Demo.cl
                                         ["qux"; "foo"; "bar"] Demo.no_options)
     = inl (SystemExit
              "ERROR: can't resolve libraries to shared libraries: qux, bar").
Proof. repeat split; vm_compute; reflexivity. Qed.

(** Without LIB in the environment the MSVC set-up fails before any
    library is looked at. *)
Example resolver_without_LIB :
  CCompiler.resolve_windows_libs
    (CCompiler.Host ∅ Os.os_path_join (fun _ => false) (fun _ => false)
                    (fun _ => "") (fun _ => None) (fun prog => prog))
    Demo.cl ["foo"] Demo.no_options
  = (inl AttributeError, []).
Proof. reflexivity. Qed.

(** ** The library models on known values *)

Example sha1_empty :
  Sha1.hexdigest "" = "da39a3ee5e6b4b0d3255bfef95601890afd80709".
Proof. vm_compute. reflexivity. Qed.

Example sha1_abc :
  Sha1.hexdigest "abc" = "a9993e364706816aba3e25717850c26c9cd0d89d".
Proof. vm_compute. reflexivity. Qed.

Example sha1_two_blocks :
  Sha1.hexdigest "abcdbcdecdefdefgefghfghighijhijkijkljklmklmnlmnomnopnopq"
  = "84983e441c3bd26ebaae4aa1f95129e5e54670f1".
Proof. vm_compute. reflexivity. Qed.

Example splitlines_ex :
  PyStr.splitlines (String "a" (String PyStr.LF (String PyStr.LF "b")))
  = ["a"; ""; "b"].
Proof. reflexivity. Qed.

Example split_ex : PyStr.split ";" "a;;b;" = ["a"; ""; "b"; ""].
Proof. reflexivity. Qed.

Example split_ws_ex : PyStr.split_ws "  ab  c " = ["ab"; "c"].
Proof. reflexivity. Qed.

Example endswith_ex :
  PyStr.endswith "libfoo.la" ".la" = true /\ PyStr.endswith "la" ".la" = false.
Proof. split; reflexivity. Qed.


(** * Further properties of the cache store *)

Section CacheStoreMore.
Import Os CacheStore Observe.

(** ** [load] away from the good path *)

Lemma cache_is_valid_source_missing w p q n :
  fault_free w -> fs w !! p = Some n -> fs w !! q = None ->
  _cache_is_valid p q w = Raise (OSError ENOENT) w.
Proof.
  intros Hf Hp Hq. unfold _cache_is_valid, bind.
  rewrite (mtime_present w p n Hf Hp).
  unfold os_stat_st_mtime, stat. by rewrite Hf, Hq.
Qed.

(** X1: with no file at the key's slot, [load] returns [None] and changes
    nothing; the source is not looked at, so it need not exist. *)
Theorem load_missing_entry cs d w k :
  _directory cs = Some d ->
  faults w (SysOpenR (os_path_join d (Sha1.hexdigest k))) = None ->
  fs w !! os_path_join d (Sha1.hexdigest k) = None ->
  load cs k w = Return PNone w.
Proof.
  intros Hd Hopen Hsf. unfold load, _get_filename. rewrite Hd.
  unfold bind at 1. unfold try_except, bind at 1, open_r.
  by rewrite Hopen, Hsf.
Qed.

Lemma load_missing_entry_witness :
  load Demo.enabled "/src/never-scanned.h" Demo.world_empty
  = Return PNone Demo.world_empty.
Proof.
  apply (load_missing_entry Demo.enabled Demo.cache_dir).
  - reflexivity.
  - reflexivity.
  - vm_compute. reflexivity.
Defined.

(** X2: with an entry in the cache and the source file gone, [load] raises
    the [OSError] of [os.stat] and leaves the entry where it is. *)
Theorem load_source_missing cs d w k ms c :
  _directory cs = Some d ->
  fault_free w ->
  fs w !! os_path_join d (Sha1.hexdigest k) = Some (File ms c) ->
  fs w !! k = None ->
  load cs k w = Raise (OSError ENOENT) w.
Proof.
  intros Hd Hf Hsf Hk. unfold load, _get_filename. rewrite Hd.
  unfold bind at 1. unfold try_except, bind at 1, open_r.
  rewrite Hf, Hsf. cbn [ret].
  unfold bind. by rewrite (cache_is_valid_source_missing w _ k _ Hf Hsf Hk).
Qed.

Lemma load_source_missing_witness :
  load Demo.enabled Demo.key (with_fs Demo.world_cached
                                (delete Demo.key (fs Demo.world_cached)))
  = Raise (OSError ENOENT)
          (with_fs Demo.world_cached (delete Demo.key (fs Demo.world_cached))).
Proof.
  apply (load_source_missing Demo.enabled Demo.cache_dir _ Demo.key 7
                             (Pickled (PInt 1))).
  - reflexivity.
  - intros c. reflexivity.
  - vm_compute. reflexivity.
  - vm_compute. reflexivity.
Defined.

(** X3: [store] does not look at the source when the slot is free: for a
    source that does not exist it writes the entry all the same, after
    which [load] and every further [store] of that key raise the [OSError]
    of [os.stat]. *)
Theorem store_without_source cs d w k v v' :
  _directory cs = Some d ->
  fault_free w ->
  fs w !! os_path_join d (Sha1.hexdigest k) = None ->
  fs w !! k = None ->
  os_path_join d (Sha1.hexdigest k) <> k ->
  let w1 := written w (os_path_join d (Sha1.hexdigest k)) v in
  store cs k v w = Return tt w1
  /\ load cs k w1 = Raise (OSError ENOENT) w1
  /\ store cs k v' w1 = Raise (OSError ENOENT) w1.
Proof.
  intros Hd Hf Hsf Hk Hne w1.
  set (sf := os_path_join d (Sha1.hexdigest k)) in *.
  assert (Hf1 : fault_free w1) by (by apply fault_free_with_fs).
  assert (Hsf1 : fs w1 !! sf = Some (File (clock w) (Pickled v)))
    by apply written_slot.
  assert (Hk1 : fs w1 !! k = None) by (subst w1; by rewrite written_other).
  split; [|split].
  - unfold store, _get_filename. rewrite Hd. fold sf.
    unfold bind at 1. rewrite (exists_missing w sf Hf Hsf).
    unfold bind at 1, ret at 1.
    apply open_w_then_dump; [done|]. intros t. by rewrite Hsf.
  - unfold load, _get_filename. rewrite Hd. fold sf.
    unfold bind at 1. unfold try_except, bind at 1, open_r.
    rewrite Hf1, Hsf1. cbn [ret].
    unfold bind. by rewrite (cache_is_valid_source_missing w1 sf k _ Hf1 Hsf1 Hk1).
  - unfold store, _get_filename. rewrite Hd. fold sf.
    unfold bind at 1. rewrite (exists_present w1 sf _ Hf1 Hsf1).
    unfold bind. by rewrite (cache_is_valid_source_missing w1 sf k _ Hf1 Hsf1 Hk1).
Qed.

Lemma store_without_source_witness :
  let w := with_fs Demo.world_empty (delete Demo.key (fs Demo.world_empty)) in
  let w1 := written w (os_path_join Demo.cache_dir (Sha1.hexdigest Demo.key))
                    (PInt 1) in
  store Demo.enabled Demo.key (PInt 1) w = Return tt w1
  /\ load Demo.enabled Demo.key w1 = Raise (OSError ENOENT) w1
  /\ store Demo.enabled Demo.key (PInt 2) w1 = Raise (OSError ENOENT) w1.
Proof.
  apply (store_without_source Demo.enabled Demo.cache_dir _ Demo.key
                              (PInt 1) (PInt 2)).
  - reflexivity.
  - intros c. reflexivity.
  - vm_compute. reflexivity.
  - vm_compute. reflexivity.
  - vm_compute. discriminate.
Defined.

(** X4: an entry that is not stale and holds bytes that are no pickle at
    all makes [load] raise the unpickling error; only a truncated entry is
    removed, this one stays. *)
Theorem load_garbled_entry cs d w k ms n :
  _directory cs = Some d ->
  fault_free w ->
  fs w !! os_path_join d (Sha1.hexdigest k) = Some (File ms Garbled) ->
  fs w !! k = Some n ->
  st_mtime n <= ms ->
  load cs k w = Raise UnpicklingError w.
Proof.
  intros Hd Hf Hsf Hk Hle. unfold load, _get_filename. rewrite Hd.
  set (sf := os_path_join d (Sha1.hexdigest k)) in *.
  unfold bind at 1. unfold try_except at 1, bind at 1, open_r.
  rewrite Hf, Hsf. cbn [ret].
  unfold bind at 1. rewrite (cache_is_valid_present w sf k _ _ Hf Hsf Hk).
  cbn [st_mtime]. destruct (Z.leb_spec (st_mtime n) ms) as [_|Hlt]; [|lia].
  cbn [negb]. unfold try_except, cPickle_load. by rewrite Hf, Hsf.
Qed.

Lemma load_garbled_entry_witness :
  load Demo.enabled Demo.key
       (with_fs Demo.world_empty
                (<[Demo.slot := File 7 Garbled]> (fs Demo.world_empty)))
  = Raise UnpicklingError
          (with_fs Demo.world_empty
                   (<[Demo.slot := File 7 Garbled]> (fs Demo.world_empty))).
Proof.
  apply (load_garbled_entry Demo.enabled Demo.cache_dir _ Demo.key 7
                            (File 5 Garbled)).
  - reflexivity.
  - intros c. reflexivity.
  - vm_compute. reflexivity.
  - vm_compute. reflexivity.
  - vm_compute. discriminate.
Defined.

(** [os.unlink] raises [OSError]; the handler of [_purge_cache] is written
    for [IOError] and never runs. *)
Lemma purge_cache_is_unlink p w : _purge_cache p w = os_unlink p w.
Proof.
  unfold _purge_cache, try_except, os_unlink.
  destruct (faults w (SysUnlink p)); [done|].
  by destruct (fs w !! p) as [[]|].
Qed.

(** X5: when the host refuses to unlink a truncated entry, with whatever
    error number (EACCES and ENOENT included), [load] raises that [OSError]
    and the entry stays. *)
Theorem load_truncated_unlink_refused cs d w k ms i n e :
  _directory cs = Some d ->
  faults w (SysOpenR (os_path_join d (Sha1.hexdigest k))) = None ->
  faults w (SysStat (os_path_join d (Sha1.hexdigest k))) = None ->
  faults w (SysStat k) = None ->
  faults w (SysRead (os_path_join d (Sha1.hexdigest k))) = None ->
  faults w (SysUnlink (os_path_join d (Sha1.hexdigest k))) = Some e ->
  fs w !! os_path_join d (Sha1.hexdigest k) = Some (File ms (Truncated i)) ->
  fs w !! k = Some n ->
  st_mtime n <= ms ->
  load cs k w = Raise (OSError e) w.
Proof.
  intros Hd Hopen Hstat Hstatk Hread Hunlink Hsf Hk Hle.
  unfold load, _get_filename. rewrite Hd.
  set (sf := os_path_join d (Sha1.hexdigest k)) in *.
  unfold bind at 1. unfold try_except at 1, bind at 1, open_r.
  rewrite Hopen, Hsf. cbn [ret].
  unfold bind at 1, _cache_is_valid, bind at 1, os_stat_st_mtime, stat.
  rewrite Hstat, Hsf. unfold bind at 1. rewrite Hstatk, Hk. cbn [st_mtime ret].
  destruct (Z.leb_spec (st_mtime n) ms) as [_|Hlt]; [|lia].
  cbn [negb]. unfold try_except at 1, cPickle_load. rewrite Hread, Hsf.
  unfold bind. rewrite purge_cache_is_unlink. unfold os_unlink.
  by rewrite Hunlink.
Qed.

Lemma load_truncated_unlink_refused_witness :
  let w := World (fs Demo.world_truncated) 10 Demo.env
                 (fun c => match c with
                           | SysUnlink _ => Some EACCES
                           | _ => None
                           end) in
  load Demo.enabled Demo.key w = Raise (OSError EACCES) w.
Proof.
  apply (load_truncated_unlink_refused Demo.enabled Demo.cache_dir _ Demo.key
                                       7 0%nat (File 5 Garbled) EACCES).
  - reflexivity.
  - reflexivity.
  - reflexivity.
  - reflexivity.
  - reflexivity.
  - reflexivity.
  - vm_compute. reflexivity.
  - vm_compute. reflexivity.
  - vm_compute. discriminate.
Defined.

(** ** What the two operations can do to the world *)



(** X7: [load] changes the world in one case only: it returns [None] and
    has unlinked a truncated regular file at the key's slot.  A value other
    than [None] is returned, and every exception raised, with the world
    untouched. *)
Theorem load_footprint cs k w :
  match load cs k w with
  | Return v w' =>
      w' = w
      \/ (v = PNone
          /\ exists sf ms i,
               _get_filename cs k = Some sf
               /\ fs w !! sf = Some (File ms (Truncated i))
               /\ w' = with_fs w (delete sf (fs w)))
  | Raise _ w' => w' = w
  end.
Proof.
  unfold load. destruct (_get_filename cs k) as [sf|]; [|by left].
  unfold bind at 1. unfold try_except at 1, bind at 1, open_r, ret.
  destruct (faults w (SysOpenR sf)) as [e|] eqn:Hopen.
  { destruct (decide (e = ENOENT)); cbn; eauto. }
  destruct (fs w !! sf) as [[ms c|t]|] eqn:Hsf; cbn [ret];
    [| by destruct (decide (EISDIR = ENOENT))
     | destruct (decide (ENOENT = ENOENT)); [by left | done] ].
  unfold bind, _cache_is_valid, bind, os_stat_st_mtime, ret.
  destruct (stat sf w); [done|]. destruct (stat k w); [done|].
  destruct (negb _); [by left|].
  unfold try_except, cPickle_load. destruct (faults w (SysRead sf)); [done|].
  rewrite Hsf. destruct c as [v|i|]; [by left| |done].
  rewrite purge_cache_is_unlink. unfold os_unlink.
  destruct (faults w (SysUnlink sf)); [done|]. rewrite Hsf.
  right. split; [done|]. by exists sf, ms, i.
Qed.



(** ** Freshness *)

(** X9: for a complete entry [load] decides by the two modification times
    alone: the value when the source is not newer than the store file
    (equal times count as fresh), [None] otherwise; the world stays as it
    is. *)
Theorem load_decides_by_mtime cs d w k v ms n :
  _directory cs = Some d ->
  fault_free w ->
  fs w !! os_path_join d (Sha1.hexdigest k) = Some (File ms (Pickled v)) ->
  fs w !! k = Some n ->
  load cs k w = Return (if st_mtime n <=? ms then v else PNone) w.
Proof.
  intros Hd Hf Hsf Hk.
  destruct (Z.leb_spec (st_mtime n) ms) as [Hle|Hlt].
  - by apply load_valid with d ms n.
  - by apply load_skips_stale with d ms (Pickled v) n.
Qed.

Lemma load_decides_by_mtime_witness :
  load Demo.enabled Demo.key
       (with_fs Demo.world_empty
          (<[Demo.slot := File 5 (Pickled (PInt 1))]> (fs Demo.world_empty)))
  = Return (PInt 1)
      (with_fs Demo.world_empty
         (<[Demo.slot := File 5 (Pickled (PInt 1))]> (fs Demo.world_empty))).
Proof.
  apply (load_decides_by_mtime Demo.enabled Demo.cache_dir _ Demo.key (PInt 1)
                               5 (File 5 Garbled)).
  - reflexivity.
  - intros c. reflexivity.
  - vm_compute. reflexivity.
  - vm_compute. reflexivity.
Defined.

(** X10: the cache follows the source.  After [store k v1], a touch of the
    source at a later time [t] and a [store k v2] at time [t'] not before
    [t], the entry holds [v2] and [load] returns it. *)
Theorem store_refreshes_after_touch cs d w k v1 v2 n t t' :
  _directory cs = Some d ->
  fault_free w ->
  fs w !! k = Some n ->
  Spec.no_valid_entry w (os_path_join d (Sha1.hexdigest k)) (st_mtime n) ->
  clock w < t ->
  t <= t' ->
  let w1 := written w (os_path_join d (Sha1.hexdigest k)) v1 in
  let w2 := advance t' (touch k t w1) in
  let w3 := written w2 (os_path_join d (Sha1.hexdigest k)) v2 in
  store cs k v1 w = Return tt w1
  /\ store cs k v2 w2 = Return tt w3
  /\ load cs k w3 = Return v2 w3.
Proof.
  intros Hd Hf Hk Hfree Ht Ht' w1 w2 w3.
  set (sf := os_path_join d (Sha1.hexdigest k)) in *.
  assert (Hne : sf <> k) by (by apply slot_differs with w n).
  assert (Hk1 : fs w1 !! k = Some n) by (subst w1; by rewrite written_other).
  assert (Hf2 : fault_free w2).
  { intros c. apply (fault_free_touch w1 k t); by apply fault_free_with_fs. }
  assert (Hsf2 : fs w2 !! sf = Some (File (clock w) (Pickled v1))).
  { subst w2. unfold advance, touch. rewrite Hk1.
    destruct n; cbn [fs with_fs]; rewrite lookup_insert_ne by done;
      apply written_slot. }
  assert (Hk2 : exists n', fs w2 !! k = Some n' /\ st_mtime n' = t).
  { subst w2. unfold advance, touch. rewrite Hk1.
    destruct n; cbn [fs with_fs]; rewrite lookup_insert_eq; eauto. }
  destruct Hk2 as (n' & Hk2 & Hn').
  split; [by apply store_writes with n|]. split.
  - apply store_writes with n'; try done.
    unfold Spec.no_valid_entry. fold sf. rewrite Hsf2. lia.
  - apply (load_valid cs d w3 k v2 (clock w2) n' Hd).
    + by apply fault_free_with_fs.
    + apply written_slot.
    + subst w3. by rewrite written_other.
    + rewrite Hn'. exact Ht'.
Qed.

Lemma store_refreshes_after_touch_witness :
  let sf := os_path_join Demo.cache_dir (Sha1.hexdigest Demo.key) in
  let w1 := written Demo.world_empty sf (PInt 1) in
  let w2 := advance 30 (touch Demo.key 20 w1) in
  let w3 := written w2 sf (PInt 2) in
  store Demo.enabled Demo.key (PInt 1) Demo.world_empty = Return tt w1
  /\ store Demo.enabled Demo.key (PInt 2) w2 = Return tt w3
  /\ load Demo.enabled Demo.key w3 = Return (PInt 2) w3.
Proof.
  apply (store_refreshes_after_touch Demo.enabled Demo.cache_dir
           Demo.world_empty Demo.key (PInt 1) (PInt 2) (File 5 Garbled) 20 30).
  - reflexivity.
  - intros c. reflexivity.
  - vm_compute. reflexivity.
  - vm_compute. exact I.
  - reflexivity.
  - discriminate.
Defined.



(** ** Keys do not interfere *)




(** ** Constructing the store, continued *)

(** The directories [_get_cachedir] may create, in a world where HOME is
    [home]. *)
Lemma get_cachedir_cases w home :
  environ w !! "HOME" = Some home ->
  let cachedir := os_path_join home ".cache" in
  let scannerdir := os_path_join cachedir "g-ir-scanner" in
  let w1 := with_fs w (<[cachedir := Dir (clock w)]> (fs w)) in
  (_get_cachedir w = Raise (OSError EEXIST) w)
  \/ (exists e, faults w (SysMkdir cachedir) = Some e
                /\ _get_cachedir w = Raise (OSError e) w)
  \/ (exists w0, (w0 = w \/ w0 = w1 /\ fs w !! cachedir = None)
        /\ ((_get_cachedir w = Raise (OSError EEXIST) w0)
            \/ (exists e, faults w (SysMkdir scannerdir) = Some e
                          /\ _get_cachedir w = Raise (OSError e) w0)
            \/ (fs w0 !! scannerdir = None
                /\ _get_cachedir w
                   = Return (Some scannerdir)
                       (with_fs w0 (<[scannerdir := Dir (clock w)]> (fs w0))))
            \/ (exists t, fs w0 !! scannerdir = Some (Dir t)
                          /\ _get_cachedir w = Return (Some scannerdir) w0)
            \/ (exists t c, fs w0 !! scannerdir = Some (File t c)
                            /\ _get_cachedir w = Return None w0))).
Proof.
  intros Hhome cachedir scannerdir w1.
  remember (_get_cachedir w) as r eqn:Hr.
  unfold _get_cachedir, bind at 1, os_environ_getitem in Hr.
  rewrite Hhome in Hr. fold cachedir in Hr. fold scannerdir in Hr.
  clearbody cachedir scannerdir. subst w1.
  set (second :=
         bind (os_path_exists scannerdir)
           (fun e2 => if negb e2
                      then bind (os_mkdir scannerdir)
                                (fun _ => ret (Some scannerdir))
                      else bind (os_path_isdir scannerdir)
                                (fun d => if negb d then ret None
                                          else ret (Some scannerdir)))) in Hr.
  assert (Hsecond : forall w0 r0,
    faults w0 = faults w -> clock w0 = clock w -> r0 = second w0 ->
    (r0 = Raise (OSError EEXIST) w0)
    \/ (exists e, faults w (SysMkdir scannerdir) = Some e
                  /\ r0 = Raise (OSError e) w0)
    \/ (fs w0 !! scannerdir = None
        /\ r0 = Return (Some scannerdir)
                  (with_fs w0 (<[scannerdir := Dir (clock w)]> (fs w0))))
    \/ (exists t, fs w0 !! scannerdir = Some (Dir t)
                  /\ r0 = Return (Some scannerdir) w0)
    \/ (exists t c, fs w0 !! scannerdir = Some (File t c)
                    /\ r0 = Return None w0)).
  { intros w0 r0 Hfl Hck Hr0. subst second.
    unfold bind, os_path_exists, os_path_isdir, os_mkdir, stat, ret in Hr0.
    rewrite Hfl in Hr0.
    destruct (faults w (SysStat scannerdir)) as [e|] eqn:Hst;
      cbn [negb] in Hr0; rewrite ?Hfl in Hr0.
    - destruct (faults w (SysMkdir scannerdir)) as [e'|];
        [right; left; eauto|].
      destruct (fs w0 !! scannerdir); [by left|].
      rewrite Hck in Hr0. right. right. by left.
    - destruct (fs w0 !! scannerdir) as [[t c|t]|] eqn:Hs; cbn [negb] in Hr0;
        rewrite ?Hfl, ?Hst, ?Hs in Hr0; cbn [negb] in Hr0.
      + do 4 right. eauto.
      + do 3 right. left. eauto.
      + destruct (faults w (SysMkdir scannerdir)) as [e'|];
          [right; left; eauto|].
        rewrite Hck in Hr0. right. right. by left. }
  clearbody second.
  unfold bind at 1, os_path_exists, stat, ret in Hr.
  destruct (faults w (SysStat cachedir)) as [e|]; cbn [negb] in Hr.
  - unfold bind at 1, os_mkdir in Hr.
    destruct (faults w (SysMkdir cachedir)) as [e'|]; [right; left; eauto|].
    destruct (fs w !! cachedir) eqn:Hc; [by left|].
    right. right. eexists. split; [right; split; [reflexivity|done]|].
    by apply Hsecond.
  - destruct (fs w !! cachedir) eqn:Hc; cbn [negb] in Hr.
    + unfold bind at 1 in Hr.
      right. right. exists w. split; [by left|]. by apply Hsecond.
    + unfold bind at 1, os_mkdir in Hr.
      destruct (faults w (SysMkdir cachedir)) as [e'|]; [right; left; eauto|].
      rewrite Hc in Hr.
      right. right. eexists. split; [right; split; [reflexivity|done]|].
      by apply Hsecond.
Qed.

Lemma init_by_cachedir w :
  __init__ w
  = match _get_cachedir w with
    | Return d w' => Return {| _directory := d |} w'
    | Raise (OSError en) w' =>
        if decide (en = EPERM) then Return {| _directory := None |} w'
        else Raise (OSError en) w'
    | Raise e w' => Raise e w'
    end.
Proof.
  unfold __init__, try_except, bind at 1, ret, raise.
  destruct (_get_cachedir w) as [d w'|e w']; [done|].
  destruct e as [en| | | | | |]; try done.
  by destruct (decide (en <> EPERM)), (decide (en = EPERM)).
Qed.

(** X13: a store the constructor returns with caching enabled has the
    directory [$HOME/.cache/g-ir-scanner], and that path is a directory in
    the world the constructor leaves. *)
Theorem init_directory_exists w cs w' d :
  __init__ w = Return cs w' ->
  _directory cs = Some d ->
  exists home t,
    environ w !! "HOME" = Some home
    /\ d = os_path_join (os_path_join home ".cache") "g-ir-scanner"
    /\ fs w' !! d = Some (Dir t).
Proof.
  rewrite init_by_cachedir. intros Hinit Hd.
  destruct (environ w !! "HOME") as [home|] eqn:Hhome.
  2: { unfold _get_cachedir, bind, os_environ_getitem in Hinit.
       by rewrite Hhome in Hinit. }
  exists home.
  destruct (get_cachedir_cases w home Hhome)
    as [Hr|[(e & _ & Hr)|(w0 & _ & [Hr|[(e & _ & Hr)|[[Hs Hr]|[(t & Hs & Hr)
       |(t & c & Hs & Hr)]]]])]];
    rewrite Hr in Hinit; repeat case_decide; simplify_eq;
    cbn [_directory] in Hd; simplify_eq.
  - eexists. split; [done|]. split; [done|]. apply lookup_insert_eq.
  - by exists t.
Qed.

Lemma init_directory_exists_witness :
  exists home t,
    environ Cases.world_bare !! "HOME" = Some home
    /\ Demo.cache_dir = os_path_join (os_path_join home ".cache") "g-ir-scanner"
    /\ fs Cases.world_ready !! Demo.cache_dir = Some (Dir t).
Proof.
  apply (init_directory_exists Cases.world_bare Demo.enabled Cases.world_ready
                               Demo.cache_dir).
  - vm_compute. reflexivity.
  - reflexivity.
Defined.



(** X15: the constructor raises in two ways only: [KeyError] when HOME is
    not set, and the [OSError] of a failed [os.mkdir] whose error number is
    not EPERM. *)
Theorem init_exceptions w e w' :
  __init__ w = Raise e w' ->
  (e = KeyError "HOME" /\ environ w !! "HOME" = None /\ w' = w)
  \/ exists en, e = OSError en /\ en <> EPERM.
Proof.
  rewrite init_by_cachedir.
  destruct (environ w !! "HOME") as [home|] eqn:Hhome.
  2: { unfold _get_cachedir, bind, os_environ_getitem. rewrite Hhome.
       intros [= <- <-]. by left. }
  intros Hinit. right.
  destruct (get_cachedir_cases w home Hhome)
    as [Hr|[(en & _ & Hr)|(w0 & _ & [Hr|[(en & _ & Hr)|[[Hs Hr]|[(t & Hs & Hr)
       |(t & c & Hs & Hr)]]]])]];
    rewrite Hr in Hinit; repeat case_decide; simplify_eq; eauto.
Qed.

Lemma init_exceptions_witness :
  (KeyError "HOME" = KeyError "HOME"
   /\ environ Cases.world_homeless !! "HOME" = None
   /\ Cases.world_homeless = Cases.world_homeless)
  \/ exists en, KeyError "HOME" = OSError en /\ en <> EPERM.
Proof.
  apply (init_exceptions Cases.world_homeless).
  reflexivity.
Defined.

Lemma get_cachedir_run w home :
  fault_free w ->
  environ w !! "HOME" = Some home ->
  let cachedir := os_path_join home ".cache" in
  let scannerdir := os_path_join cachedir "g-ir-scanner" in
  let w0 := match fs w !! cachedir with
            | Some _ => w
            | None => with_fs w (<[cachedir := Dir (clock w)]> (fs w))
            end in
  _get_cachedir w
  = match fs w0 !! scannerdir with
    | None =>
        Return (Some scannerdir)
               (with_fs w0 (<[scannerdir := Dir (clock w)]> (fs w0)))
    | Some (Dir _) => Return (Some scannerdir) w0
    | Some (File _ _) => Return None w0
    end.
Proof.
  intros Hf Hhome cachedir scannerdir w0.
  assert (Hsecond : forall w1,
    fault_free w1 -> clock w1 = clock w ->
    bind (os_path_exists scannerdir)
      (fun e2 => if negb e2
                 then bind (os_mkdir scannerdir) (fun _ => ret (Some scannerdir))
                 else bind (os_path_isdir scannerdir)
                        (fun d => if negb d then ret None
                                  else ret (Some scannerdir))) w1
    = match fs w1 !! scannerdir with
      | None =>
          Return (Some scannerdir)
                 (with_fs w1 (<[scannerdir := Dir (clock w)]> (fs w1)))
      | Some (Dir _) => Return (Some scannerdir) w1
      | Some (File _ _) => Return None w1
      end).
  { intros w1 Hf1 Hck. unfold bind at 1.
    destruct (fs w1 !! scannerdir) as [[t c|t]|] eqn:Hs.
    - rewrite (exists_present w1 _ _ Hf1 Hs). cbn [negb].
      unfold bind, os_path_isdir, stat. by rewrite Hf1, Hs.
    - rewrite (exists_present w1 _ _ Hf1 Hs). cbn [negb].
      unfold bind, os_path_isdir, stat. by rewrite Hf1, Hs.
    - rewrite (exists_missing w1 _ Hf1 Hs). cbn [negb].
      unfold bind, os_mkdir. by rewrite Hf1, Hs, Hck. }
  unfold _get_cachedir, bind at 1, os_environ_getitem. rewrite Hhome.
  fold cachedir. fold scannerdir. unfold bind at 1. subst w0.
  destruct (fs w !! cachedir) eqn:Hc.
  - rewrite (exists_present w _ _ Hf Hc). cbn [negb].
    unfold bind at 1, ret at 1. by apply Hsecond.
  - rewrite (exists_missing w _ Hf Hc). cbn [negb].
    unfold bind at 1, os_mkdir. rewrite Hf, Hc.
    apply Hsecond; [|done]. by apply fault_free_with_fs.
Qed.

(** X16: constructing the store a second time changes nothing.  When no
    system call fails and the constructor returned, running it again in the
    world it left returns the same store and leaves that world as it is. *)
Theorem init_idempotent w cs w' :
  fault_free w ->
  __init__ w = Return cs w' ->
  __init__ w' = Return cs w'.
Proof.
  intros Hf. rewrite init_by_cachedir.
  destruct (environ w !! "HOME") as [home|] eqn:Hhome.
  2: { unfold _get_cachedir, bind, os_environ_getitem. by rewrite Hhome. }
  rewrite (get_cachedir_run w home Hf Hhome). cbn zeta.
  set (cd := os_path_join home ".cache").
  set (sd := os_path_join cd "g-ir-scanner").
  assert (Hagain : forall w2 r,
             fault_free w2 ->
             environ w2 !! "HOME" = Some home ->
             is_Some (fs w2 !! cd) ->
             match fs w2 !! sd with
             | Some (Dir _) => r = Some sd
             | Some (File _ _) => r = None
             | None => False
             end ->
             __init__ w2 = Return {| _directory := r |} w2).
  { intros w2 r Hf2 Hhome2 [n Hcd] Hsd.
    rewrite init_by_cachedir, (get_cachedir_run w2 home Hf2 Hhome2). cbn zeta.
    fold cd. fold sd. rewrite Hcd.
    destruct (fs w2 !! sd) as [[]|]; by subst. }
  destruct (fs w !! cd) as [n|] eqn:Hcd.
  - destruct (fs w !! sd) as [[t c|t]|] eqn:Hsd; intros [= <- <-].
    + apply Hagain; eauto. by rewrite Hsd.
    + apply Hagain; eauto. by rewrite Hsd.
    + apply Hagain; cbn [fs environ with_fs].
      * by apply fault_free_with_fs.
      * done.
      * rewrite lookup_insert_ne; [eauto|]. intros Heq. congruence.
      * by rewrite lookup_insert_eq.
  - set (w1 := with_fs w (<[cd := Dir (clock w)]> (fs w))).
    assert (Hf1 : fault_free w1) by (by apply fault_free_with_fs).
    assert (Hcd1 : is_Some (fs w1 !! cd))
      by (cbn [fs with_fs w1]; rewrite lookup_insert_eq; eauto).
    destruct (fs w1 !! sd) as [[t c|t]|] eqn:Hsd; intros [= <- <-].
    + apply Hagain; eauto. by rewrite Hsd.
    + apply Hagain; eauto. by rewrite Hsd.
    + apply Hagain; cbn [fs environ with_fs].
      * by apply fault_free_with_fs.
      * done.
      * destruct Hcd1 as [n1 Hn1]. destruct (decide (sd = cd)) as [Heq|Hne].
        -- rewrite Heq, lookup_insert_eq. eauto.
        -- rewrite lookup_insert_ne by done. eauto.
      * by rewrite lookup_insert_eq.
Qed.

Lemma init_idempotent_witness :
  __init__ Cases.world_ready = Return Demo.enabled Cases.world_ready.
Proof.
  apply (init_idempotent Cases.world_bare).
  - intros c. reflexivity.
  - vm_compute. reflexivity.
Defined.

End CacheStoreMore.

(** * Further properties of the compiler module *)

Section StringFacts.

Lemma string_length_append (s p : string) :
  String.length (s +:+ p) = (String.length s + String.length p)%nat.
Proof. induction s as [|c s IH]; [done|]. simpl. by f_equal. Qed.

Lemma slice_from_append (s p : string) :
  PyStr.slice_from (String.length s) (s +:+ p) = p.
Proof. induction s as [|c s IH]; simpl; [by destruct p | done]. Qed.

Lemma endswith_append (s p : string) : PyStr.endswith (s +:+ p) p = true.
Proof.
  unfold PyStr.endswith. rewrite string_length_append.
  replace (String.length s + String.length p - String.length p)%nat
    with (String.length s) by lia.
  rewrite slice_from_append, String.eqb_refl, andb_true_r.
  apply Nat.leb_le. lia.
Qed.

Lemma startswith_nil (s : string) : PyStr.startswith s "" = true.
Proof. by destruct s. Qed.

End StringFacts.

Section LinkFlagsMore.
Import CCompiler.

Variable h : host.
Variable self : CCompiler.

(** X17: under MSVC the internal builder is the external one: [libtool] and
    the library paths add nothing, whatever they are. *)
Theorem internal_is_external_under_msvc args libtool libraries libpaths :
  check_is_msvc self = true ->
  get_internal_link_flags h self args libtool libraries libpaths
  = get_external_link_flags self args libraries.
Proof.
  intros Hmsvc. unfold get_internal_link_flags, get_external_link_flags.
  rewrite path_loop, Hmsvc. cbn [negb].
  replace (flat_map (Spec.path_flags h true libtool) libpaths)
    with (@nil string); [by rewrite app_nil_r|].
  by induction libpaths.
Qed.

(** X18: under MSVC every argument the external builder adds ends in
    [.lib], also for a name that ends in [.la]: there the name is not passed
    through. *)
Theorem msvc_flags_end_in_lib args libraries :
  check_is_msvc self = true ->
  exists flags,
    get_external_link_flags self args libraries = args ++ flags
    /\ length flags = length libraries
    /\ Forall (fun f => PyStr.endswith f ".lib" = true) flags.
Proof.
  intros Hmsvc. exists (map (Spec.decorate true) libraries).
  unfold get_external_link_flags. rewrite decorate_loop, Hmsvc.
  split; [done|]. split; [by rewrite length_map|].
  apply Forall_map, Forall_forall. intros name _. cbn.
  apply endswith_append.
Qed.

End LinkFlagsMore.

Lemma internal_is_external_under_msvc_witness :
  CCompiler.get_internal_link_flags Demo.msvc_host Demo.cl ["/nologo"] false
    ["foo"] ["/opt/lib"]
  = CCompiler.get_external_link_flags Demo.cl ["/nologo"] ["foo"].
Proof.
  apply (internal_is_external_under_msvc Demo.msvc_host Demo.cl).
  reflexivity.
Defined.

Lemma msvc_flags_end_in_lib_witness :
  exists flags,
    CCompiler.get_external_link_flags Demo.cl [] ["foo"; "libbar.la"]
    = [] ++ flags
    /\ length flags = length ["foo"; "libbar.la"]
    /\ Forall (fun f => PyStr.endswith f ".lib" = true) flags.
Proof.
  apply (msvc_flags_end_in_lib Demo.cl). reflexivity.
Defined.

Section ResolverMore.
Import CCompiler.

Variable h : host.
Variable self : CCompiler.
Variable opts : options.

(** Every call of a search is an existence check of one of its files, or a
    run of the tool on a file that exists. *)
Lemma probe_calls_sound msvc args ps c :
  In c (fst (Spec.probe h msvc args ps)) ->
  exists p,
    In p ps
    /\ (c = Exists p \/ (c = Popen (args ++ [p]) /\ os_path_exists h p = true)).
Proof.
  induction ps as [|q rest IH]; cbn [Spec.probe]; [done|].
  destruct (os_path_exists h q) eqn:Hq.
  - destruct (Spec.parse_output msvc _) as [dll|].
    + cbn. intros [<-|[<-|[]]]; exists q; split; auto; by left.
    + destruct (Spec.probe h msvc args rest) as [cs r]. cbn.
      intros [<-|[<-|Hc]]; [exists q; split; [by left|auto] ..|].
      destruct (IH Hc) as (p & Hp & Hcall). exists p. split; [by right|done].
  - destruct (Spec.probe h msvc args rest) as [cs r]. cbn.
    intros [<-|Hc]; [exists q; split; [by left|auto]|].
    destruct (IH Hc) as (p & Hp & Hcall). exists p. split; [by right|done].
Qed.

(** X19: the resolver looks nowhere else and runs the tool on nothing
    else: after the set-up, every [os.path.exists] call is on a candidate
    file of a requested library in a search directory, and every tool run
    is on such a file that exists. *)
Theorem resolver_calls_are_probes libraries args libsearch calls0 c :
  search_setup h self opts = inr (args, libsearch, calls0) ->
  In c (snd (resolve_windows_libs h self libraries opts)) ->
  In c calls0
  \/ exists lib p,
       In lib libraries
       /\ In p (Spec.probes h libsearch lib)
       /\ (c = Exists p
           \/ (c = Popen (args ++ [p]) /\ os_path_exists h p = true)).
Proof.
  intros Hsetup. unfold resolve_windows_libs. rewrite Hsetup, for_lib_spec.
  cbn [app].
  assert (Hcalls : In c (calls0
                         ++ flat_map (Spec.probe_calls h (check_is_msvc self)
                                                       args libsearch)
                                     libraries) ->
                   In c calls0
                   \/ exists lib p,
                        In lib libraries
                        /\ In p (Spec.probes h libsearch lib)
                        /\ (c = Exists p
                            \/ (c = Popen (args ++ [p])
                                /\ os_path_exists h p = true))).
  { intros Hc. apply in_app_or in Hc as [Hc|Hc]; [by left|]. right.
    apply in_flat_map in Hc as (lib & Hlib & Hc).
    destruct (probe_calls_sound _ _ _ _ Hc) as (p & Hp & Hcall).
    by exists lib, p. }
  by destruct (0 <? length _)%nat.
Qed.

(** X20: requests compose.  When the libraries of two requests all
    resolve, the request for both lists returns the names of the first
    followed by those of the second. *)
Theorem resolver_appends libraries1 libraries2 shlibs1 shlibs2 :
  fst (resolve_windows_libs h self libraries1 opts) = inr shlibs1 ->
  fst (resolve_windows_libs h self libraries2 opts) = inr shlibs2 ->
  fst (resolve_windows_libs h self (libraries1 ++ libraries2) opts)
  = inr (shlibs1 ++ shlibs2).
Proof.
  unfold resolve_windows_libs.
  destruct (search_setup h self opts) as [e|[[args libsearch] calls0]];
    [done|].
  rewrite !for_lib_spec. cbn [app]. rewrite filter_app, omap_app.
  destruct (filter _ libraries1); [|done].
  destruct (filter _ libraries2); [|done].
  cbn. by intros [= <-] [= <-].
Qed.

Lemma filter_all {A} (P : A -> Prop) `{!forall x, Decision (P x)} (l : list A) :
  (forall x, P x) -> filter P l = l.
Proof.
  intros HP. induction l as [|x l IH]; [done|].
  by rewrite filter_cons_True, IH.
Qed.

(** No search directory, no call and no name. *)
Lemma nothing_to_probe msvc args libraries :
  (forall lib, Spec.resolution h msvc args [] lib = None)
  /\ flat_map (Spec.probe_calls h msvc args []) libraries = [].
Proof. split; [done|]. by induction libraries. Qed.

Lemma no_libraries_line lines :
  Forall (fun line => PyStr.startswith line "libraries: " = false) lines ->
  forall acc,
    fold_left
      (fun libsearch line =>
         if PyStr.startswith line "libraries: " then
           PyStr.split ";" (PyStr.slice_from 11 line)
         else libsearch)
      lines acc
    = acc.
Proof.
  induction 1 as [|line rest Hline _ IH]; intros acc; [done|].
  cbn [fold_left]. by rewrite Hline.
Qed.

(** X21: when the compiler's [-print-search-dirs] output has no line that
    starts with [libraries: ], a non-MSVC run checks no file at all and ends
    in [SystemExit], naming every requested library in the order of the
    request. *)
Theorem resolver_without_search_dirs libraries :
  check_is_msvc self = false ->
  Forall (fun line => PyStr.startswith line "libraries: " = false)
         (PyStr.splitlines (popen h [compiler_cmd self; "-print-search-dirs"])) ->
  libraries <> [] ->
  resolve_windows_libs h self libraries opts
  = (inl (SystemExit (Spec.failure_message libraries)),
     [Popen [compiler_cmd self; "-print-search-dirs"]]).
Proof.
  intros Hmsvc Hlines Hne. unfold resolve_windows_libs, search_setup.
  rewrite Hmsvc, (no_libraries_line _ Hlines).
  match goal with
  | |- context [for_lib h false ?a [] libraries _] =>
      destruct (nothing_to_probe false a libraries) as (Hnone & Hcalls);
      rewrite for_lib_spec, Hcalls, (filter_all _ _ Hnone)
  end.
  destruct libraries; [done|]. reflexivity.
Qed.

(** X22: of several lines that start with [libraries: ] the last one
    counts: the search directories are its remainder, split at the
    semicolons. *)
Theorem last_libraries_line_wins before dirs after :
  check_is_msvc self = false ->
  PyStr.splitlines (popen h [compiler_cmd self; "-print-search-dirs"])
  = before ++ ("libraries: " +:+ dirs) :: after ->
  Forall (fun line => PyStr.startswith line "libraries: " = false) after ->
  exists args,
    search_setup h self opts
    = inr (args, PyStr.split ";" dirs,
           [Popen [compiler_cmd self; "-print-search-dirs"]]).
Proof.
  intros Hmsvc Hlines Hafter. unfold search_setup. rewrite Hmsvc, Hlines.
  eexists. rewrite fold_left_app. cbn [fold_left].
  replace (PyStr.startswith ("libraries: " +:+ dirs) "libraries: ") with true
    by (cbn; by destruct dirs).
  rewrite (no_libraries_line _ Hafter). reflexivity.
Qed.

(** Under MSVC what a line resolves to ends in [.dll]. *)
Lemma first_descriptor_dll lines dll :
  Spec.first_descriptor lines = Some dll -> PyStr.endswith dll ".dll" = true.
Proof.
  induction lines as [|line rest IH]; [done|]. cbn [Spec.first_descriptor].
  unfold Spec.import_descriptor.
  destruct (PyStr.contains _ line); [|done].
  destruct (List.find _ (PyStr.split_ws line)); [|done].
  intros [= <-]. apply endswith_append.
Qed.

Lemma probe_dll args ps dll :
  snd (Spec.probe h true args ps) = Some dll ->
  PyStr.endswith dll ".dll" = true.
Proof.
  induction ps as [|p rest IH]; [done|]. cbn [Spec.probe].
  destruct (os_path_exists h p).
  - destruct (Spec.parse_output true _) as [d|] eqn:Hd.
    + cbn. intros [= <-]. by apply first_descriptor_dll in Hd.
    + by destruct (Spec.probe h true args rest).
  - by destruct (Spec.probe h true args rest).
Qed.

(** X23: under MSVC every name a run returns ends in [.dll]. *)
Theorem msvc_names_end_in_dll libraries shlibs :
  check_is_msvc self = true ->
  fst (resolve_windows_libs h self libraries opts) = inr shlibs ->
  Forall (fun name => PyStr.endswith name ".dll" = true) shlibs.
Proof.
  intros Hmsvc. unfold resolve_windows_libs.
  destruct (search_setup h self opts) as [e|[[args libsearch] calls0]];
    [done|].
  rewrite for_lib_spec, Hmsvc. cbn [app].
  destruct (filter _ libraries); [|done]. cbn. intros [= <-].
  induction libraries as [|lib rest IH]; [constructor|].
  cbn [omap list_omap].
  destruct (Spec.resolution h true args libsearch lib) as [dll|] eqn:Hres;
    [|done].
  constructor; [|done]. by apply probe_dll in Hres.
Qed.

End ResolverMore.

Lemma resolver_calls_are_probes_witness :
  In (CCompiler.Popen ["dlltool.exe"; "--identify"; "/opt/lib/libbar.dll.a"])
     [CCompiler.Popen ["gcc"; "-print-search-dirs"]]
  \/ exists lib p,
       In lib ["bar"]
       /\ In p (Spec.probes Demo.mingw_host ["/usr/lib"; "=/opt/lib"] lib)
       /\ (CCompiler.Popen ["dlltool.exe"; "--identify"; "/opt/lib/libbar.dll.a"]
           = CCompiler.Exists p
           \/ (CCompiler.Popen ["dlltool.exe"; "--identify";
                                "/opt/lib/libbar.dll.a"]
               = CCompiler.Popen (["dlltool.exe"; "--identify"] ++ [p])
               /\ CCompiler.os_path_exists Demo.mingw_host p = true)).
Proof.
  apply (resolver_calls_are_probes Demo.mingw_host Demo.gcc Demo.no_options
                                   ["bar"]).
  - vm_compute. reflexivity.
  - vm_compute. do 7 right. left. reflexivity.
Defined.

Lemma resolver_appends_witness :
  fst (CCompiler.resolve_windows_libs Demo.mingw_host Demo.gcc
                                      (["bar"] ++ ["bar"]) Demo.no_options)
  = inr (["libbar-1.dll"] ++ ["libbar-1.dll"]).
Proof.
  apply (resolver_appends Demo.mingw_host Demo.gcc Demo.no_options).
  - vm_compute. reflexivity.
  - vm_compute. reflexivity.
Defined.

Lemma resolver_without_search_dirs_witness :
  CCompiler.resolve_windows_libs Cases.silent_host Demo.gcc ["bar"; "baz"]
                                 Demo.no_options
  = (inl (SystemExit (Spec.failure_message ["bar"; "baz"])),
     [CCompiler.Popen ["gcc"; "-print-search-dirs"]]).
Proof.
  apply (resolver_without_search_dirs Cases.silent_host Demo.gcc
                                      Demo.no_options).
  - reflexivity.
  - vm_compute. repeat constructor.
  - discriminate.
Defined.

Lemma last_libraries_line_wins_witness :
  exists args,
    CCompiler.search_setup Cases.two_line_host Demo.gcc Demo.no_options
    = inr (args, PyStr.split ";" "/second;=/third",
           [CCompiler.Popen ["gcc"; "-print-search-dirs"]]).
Proof.
  apply (last_libraries_line_wins Cases.two_line_host Demo.gcc Demo.no_options
                                  ["libraries: /first"] "/second;=/third"
                                  ["programs: /bin"]).
  - reflexivity.
  - vm_compute. reflexivity.
  - vm_compute. repeat constructor.
Defined.

Lemma msvc_names_end_in_dll_witness :
  Forall (fun name => PyStr.endswith name ".dll" = true) ["foo-2.dll"].
Proof.
  apply (msvc_names_end_in_dll Demo.msvc_host Demo.cl Demo.no_options ["foo"]).
  - reflexivity.
  - vm_compute. reflexivity.
Defined.

(** * The constructor of the compiler object *)

Section CCompilerInitFacts.
Import CCompiler CCompilerInit.

Variable lib : Distutils.library.
Variable oe : gmap string string.
Variable env : gmap string string.

(** The name the constructor settles on under Windows. *)
Lemma ccompiler_init_nt name :
  exists n,
    (forall x, name = Some x -> n = x)
    /\ (name = None ->
        (env !! "MSYSTEM" = Some "MINGW32" \/ env !! "MSYSTEM" = Some "MINGW64") ->
        n = "mingw32")
    /\ (name = None ->
        env !! "MSYSTEM" <> Some "MINGW32" -> env !! "MSYSTEM" <> Some "MINGW64" ->
        n = Distutils.get_default_compiler lib)
    /\ let made := Distutils.customize_compiler lib
                     (Distutils.new_compiler lib n) in
       match __init__ lib oe env "nt" name with
       | inr c =>
           (n = "msvc" \/ n = "mingw32")
           /\ compiler (self c) = Distutils.class made
           /\ Distutils.class (instance c) = Distutils.class made
       | inl (Fatal e) =>
           n <> "msvc" /\ n <> "mingw32"
           /\ e = SystemExit ("Specified Compiler '" +:+ n
                              +:+ "' is unsupported.")
       | inl IndexError =>
           (n = "msvc" \/ n = "mingw32")
           /\ Distutils.class made = Mingw32CCompiler
           /\ Distutils.compiler made = []
       end.
Proof.
  unfold __init__. rewrite String.eqb_refl.
  match goal with
  | |- context [negb (String.eqb ?x "msvc")] => set (n := x)
  end.
  exists n. split; [|split; [|split]].
  - intros x ->. reflexivity.
  - intros -> Hm. subst n.
    destruct Hm as [Hm|Hm]; rewrite Hm;
      [rewrite bool_decide_eq_true_2 by done; done|].
    rewrite (bool_decide_eq_true_2 (Some "MINGW64" = Some "MINGW64")) by done.
    by rewrite orb_true_r.
  - intros -> H32 H64. subst n.
    by rewrite !bool_decide_eq_false_2.
  - clearbody n. cbv zeta.
    set (made := Distutils.customize_compiler lib (Distutils.new_compiler lib n)).
    destruct (String.eqb_spec n "msvc") as [Hn|Hmsvc];
      [|destruct (String.eqb_spec n "mingw32") as [Hn|Hmingw]]; cbn [negb andb];
      [ | |done].
    all: assert (Hn' : n = "msvc" \/ n = "mingw32") by auto.
    all: fold made.
    all: unfold is_Mingw32CCompiler, check_is_msvc, unfinished; cbn [compiler].
    all: destruct (Distutils.class made) eqn:Hc;
      cbn [Distutils.class Distutils.compiler]; rewrite ?Hc; try done.
    all: destruct (Distutils.compiler made); done.
Qed.

(** X24: on Windows the constructor builds from the [msvc] or the
    [mingw32] compiler of distutils and from nothing else; a name given by
    the caller is the one used, whatever MSYSTEM says; any other name ends
    in [SystemExit] with a message that quotes it. *)
Theorem ccompiler_init_on_windows name :
  match __init__ lib oe env "nt" (Some name) with
  | inr c =>
      (name = "msvc" \/ name = "mingw32")
      /\ compiler (self c)
         = Distutils.class
             (Distutils.customize_compiler lib
                (Distutils.new_compiler lib name))
  | inl (Fatal e) =>
      name <> "msvc" /\ name <> "mingw32"
      /\ e = SystemExit ("Specified Compiler '" +:+ name
                         +:+ "' is unsupported.")
  | inl IndexError =>
      (name = "msvc" \/ name = "mingw32")
      /\ Distutils.compiler
           (Distutils.customize_compiler lib (Distutils.new_compiler lib name))
         = []
  end.
Proof.
  destruct (ccompiler_init_nt (Some name)) as (n & Hn & _ & _ & Hres).
  rewrite (Hn name eq_refl) in Hres. cbn zeta in Hres.
  destruct (__init__ lib oe env "nt" (Some name)) as [[e|]|c];
    [done | by destruct Hres as (? & _ & ?) | by destruct Hres as (? & ? & _)].
Qed.

(** X25: on Windows, with no name given, MSYSTEM set to MINGW32 or MINGW64
    selects [mingw32]: the constructor then never asks distutils for its
    default and never builds the MSVC compiler object. *)
Theorem ccompiler_init_msystem :
  env !! "MSYSTEM" = Some "MINGW32" \/ env !! "MSYSTEM" = Some "MINGW64" ->
  match __init__ lib oe env "nt" None with
  | inr c =>
      compiler (self c)
      = Distutils.class
          (Distutils.customize_compiler lib
             (Distutils.new_compiler lib "mingw32"))
  | inl (Fatal _) => False
  | inl IndexError =>
      Distutils.compiler
        (Distutils.customize_compiler lib (Distutils.new_compiler lib "mingw32"))
      = []
  end.
Proof.
  intros Hm.
  destruct (ccompiler_init_nt None) as (n & _ & Hn & _ & Hres).
  rewrite (Hn eq_refl Hm) in Hres. cbn zeta in Hres.
  destruct (__init__ lib oe env "nt" None) as [[e|]|c];
    [by destruct Hres as [_ [Hne _]]
    | by destruct Hres as (_ & _ & ?)
    | by destruct Hres as (_ & ? & _)].
Qed.

(** X26: off Windows the constructor does not look at the requested
    compiler name or at the [environ] it is given: whatever they are, the
    result is the one for no name and an empty [environ]. *)
Theorem ccompiler_init_off_windows osname name :
  osname <> "nt" ->
  __init__ lib oe env osname name = __init__ lib oe ∅ osname None.
Proof.
  intros Hos. unfold __init__.
  by destruct (String.eqb_spec osname "nt").
Qed.

(** X27: the process environment after a successful construction.  For an
    MSVC compiler DISTUTILS_USE_SDK is "1"; MSSdk keeps its value if it had
    one, and otherwise takes that of WindowsSDKDir if set, else that of a
    non-empty VCInstallDir, else stays unset; no other variable changes.
    For every other compiler the environment is untouched. *)
Theorem ccompiler_init_environment osname name c :
  __init__ lib oe env osname name = inr c ->
  if check_is_msvc (self c) then
    os_environ c !! "DISTUTILS_USE_SDK" = Some "1"
    /\ os_environ c !! "MSSdk"
       = match oe !! "MSSdk", oe !! "WindowsSDKDir", oe !! "VCInstallDir" with
         | Some v, _, _ => Some v
         | None, Some v, _ => Some v
         | None, None, Some v => if String.eqb v "" then None else Some v
         | None, None, None => None
         end
    /\ (forall key, key <> "DISTUTILS_USE_SDK" -> key <> "MSSdk" ->
                    os_environ c !! key = oe !! key)
    /\ compiler_cmd (self c) = "cl.exe"
    /\ _cflags_no_deprecation_warnings (self c) = "-wd4996"
  else
    os_environ c = oe
    /\ _cflags_no_deprecation_warnings (self c)
       = "-Wno-deprecated-declarations".
Proof.
  unfold __init__.
  destruct (if String.eqb osname "nt" then _ else _) as [e|n]; [done|].
  match goal with
  | |- context [check_is_msvc (unfinished ?j)] => generalize j
  end.
  intros i. unfold check_is_msvc at 1, unfinished. cbn [compiler].
  destruct (Distutils.class i) eqn:Hi.
  - intros [= <-]. unfold check_is_msvc. cbn [self compiler os_environ
      compiler_cmd _cflags_no_deprecation_warnings].
    rewrite !lookup_insert_ne by done.
    split; [|split; [|split; [|done]]].
    + destruct (oe !! "MSSdk"); [by rewrite lookup_insert_eq|].
      destruct (oe !! "WindowsSDKDir");
        [by rewrite lookup_insert_ne, lookup_insert_eq|].
      destruct (oe !! "VCInstallDir") as [v|]; [|by rewrite lookup_insert_eq].
      destruct (String.eqb v ""); cbn [negb];
        by rewrite ?lookup_insert_ne, lookup_insert_eq by done.
    + destruct (oe !! "MSSdk") eqn:Hsdk;
        [by rewrite lookup_insert_ne, Hsdk|].
      destruct (oe !! "WindowsSDKDir"); [by rewrite lookup_insert_eq|].
      destruct (oe !! "VCInstallDir") as [v|];
        [|by rewrite lookup_insert_ne, Hsdk].
      destruct (String.eqb v ""); cbn [negb];
        [by rewrite lookup_insert_ne, Hsdk | by rewrite lookup_insert_eq].
    + intros key Hk1 Hk2.
      destruct (oe !! "MSSdk"); [by rewrite lookup_insert_ne|].
      destruct (oe !! "WindowsSDKDir"); [by rewrite !lookup_insert_ne|].
      destruct (oe !! "VCInstallDir") as [v|]; [|by rewrite lookup_insert_ne].
      destruct (String.eqb v ""); cbn [negb]; by rewrite !lookup_insert_ne.
  - unfold is_Mingw32CCompiler. rewrite Hi.
    destruct (Distutils.compiler i); [done|].
    intros [= <-]. unfold check_is_msvc. cbn. by rewrite ?Hi.
  - unfold is_Mingw32CCompiler. rewrite Hi.
    intros [= <-]. unfold check_is_msvc. cbn. by rewrite ?Hi.
Qed.

(** X28: a MinGW compiler object leaves the constructor with
    [dll_libraries] empty or exactly [msvcrt], with a preprocessor set, and
    with [compiler_cmd] the first word of its compiler command. *)
Theorem ccompiler_init_mingw osname name c :
  __init__ lib oe env osname name = inr c ->
  Distutils.class (instance c) = Mingw32CCompiler ->
  (Distutils.dll_libraries (instance c) = []
   \/ Distutils.dll_libraries (instance c) = ["msvcrt"])
  /\ is_Some (Distutils.preprocessor (instance c))
  /\ exists rest,
       Distutils.compiler (instance c) = compiler_cmd (self c) :: rest.
Proof.
  unfold __init__.
  destruct (if String.eqb osname "nt" then _ else _) as [e|n]; [done|].
  generalize (Distutils.customize_compiler lib (Distutils.new_compiler lib n)).
  intros i. unfold is_Mingw32CCompiler, check_is_msvc, unfinished.
  cbn [compiler].
  destruct (Distutils.class i) eqn:Hi;
    cbn [Distutils.class Distutils.compiler]; rewrite ?Hi.
  - intros [= <-]. cbn. by rewrite Hi.
  - destruct (Distutils.compiler i) as [|c0 rest] eqn:Hl; [done|].
    intros [= <-] _. cbn [instance self compiler_cmd Distutils.dll_libraries
                          Distutils.preprocessor Distutils.compiler].
    split; [|split; [|by exists rest]].
    + case_bool_decide as Hd; [by left|]. right.
      by destruct (decide (Distutils.dll_libraries i = ["msvcrt"])).
    + destruct (Distutils.preprocessor i); eauto.
  - intros [= <-]. cbn. by rewrite Hi.
Qed.

End CCompilerInitFacts.

Lemma ccompiler_init_msystem_witness :
  match CCompilerInit.__init__ Cases.distutils ∅ {[ "MSYSTEM" := "MINGW64" ]}
                               "nt" None with
  | inr c =>
      CCompiler.compiler (CCompilerInit.self c)
      = Distutils.class
          (Distutils.customize_compiler Cases.distutils
             (Distutils.new_compiler Cases.distutils "mingw32"))
  | inl (CCompilerInit.Fatal _) => False
  | inl CCompilerInit.IndexError =>
      Distutils.compiler
        (Distutils.customize_compiler Cases.distutils
           (Distutils.new_compiler Cases.distutils "mingw32"))
      = []
  end.
Proof.
  apply (ccompiler_init_msystem Cases.distutils ∅ {[ "MSYSTEM" := "MINGW64" ]}).
  right. vm_compute. reflexivity.
Defined.

Lemma ccompiler_init_off_windows_witness :
  CCompilerInit.__init__ Cases.distutils ∅ {[ "MSYSTEM" := "MINGW32" ]}
                         "posix" (Some "mingw32")
  = CCompilerInit.__init__ Cases.distutils ∅ ∅ "posix" None.
Proof.
  apply (ccompiler_init_off_windows Cases.distutils). discriminate.
Defined.

Lemma ccompiler_init_environment_witness :
  CCompilerInit.os_environ Cases.built_msvc !! "DISTUTILS_USE_SDK" = Some "1"
  /\ CCompilerInit.os_environ Cases.built_msvc !! "MSSdk" = Some "C:/sdk".
Proof.
  pose proof (ccompiler_init_environment Cases.distutils Cases.vs_environ ∅
                "nt" None Cases.built_msvc) as Henv.
  destruct Henv as (Huse & Hsdk & _).
  - vm_compute. reflexivity.
  - split; [exact Huse|]. rewrite Hsdk. vm_compute. reflexivity.
Defined.

Lemma ccompiler_init_mingw_witness :
  (Distutils.dll_libraries (CCompilerInit.instance Cases.built_mingw) = []
   \/ Distutils.dll_libraries (CCompilerInit.instance Cases.built_mingw)
      = ["msvcrt"])
  /\ is_Some (Distutils.preprocessor (CCompilerInit.instance Cases.built_mingw))
  /\ exists rest,
       Distutils.compiler (CCompilerInit.instance Cases.built_mingw)
       = CCompiler.compiler_cmd (CCompilerInit.self Cases.built_mingw) :: rest.
Proof.
  apply (ccompiler_init_mingw Cases.distutils Cases.vs_environ ∅ "nt"
                              (Some "mingw32")).
  - vm_compute. reflexivity.
  - reflexivity.
Defined.
